(** * Playback of a simulated-annealing run: [animateTSP]

    A shallow embedding of [animated_visualizer.py].  The module draws three
    panels (tour path, temperature trace, cost trace) through matplotlib and
    advances them with a [FuncAnimation].  The embedding keeps

    - Python's own data: lists indexed by integers (with negative indices
      wrapping and [IndexError] out of range), [None]-able arguments, binary64
      floats (Rocq's primitive floats are the same IEEE 754 numbers);
    - the plotting backend as an explicit figure state: a store of line
      objects, three axes that list the objects they show, and the limits,
      titles and labels most recently requested for each axes;
    - the closures [init] and [update] as state transformers that may raise.
*)

From Stdlib Require Import ZArith String Ascii List Bool Lia DecimalString.
From Stdlib Require Import PrimFloat FloatOps SpecFloat.
From stdpp Require Import base list list_numbers strings sets.

Set Warnings "-inexact-float".
Local Open Scope Z_scope.

(** ** Python values and built-ins *)

Module Py.

(** The two exceptions the module can raise: a failed lookup, and a bad
    value ([max] of an empty list, a non-finite axis limit). *)
Inductive exn : Set :=
| IndexError
| ValueError.

Inductive res (A : Type) : Type :=
| Ok (a : A)
| Raise (e : exn).
Arguments Ok {A} a.
Arguments Raise {A} e.

#[export] Instance res_ret : MRet res := fun _ a => Ok a.
#[export] Instance res_bind : MBind res := fun _ _ f m =>
  match m with
  | Ok a => f a
  | Raise e => Raise e
  end.

(** A Python number as the module meets it: [int] (frame counters, lengths)
    or [float] (coordinates, temperatures, costs). *)
Inductive num : Set :=
| PyInt (z : Z)
| PyFloat (f : float).

(** [len(l)] *)
Definition len {A} (l : list A) : Z := Z.of_nat (length l).

(** [l[i]]: a negative index counts from the end; outside
    [-len(l) .. len(l)-1] the lookup raises [IndexError]. *)
Definition getitem {A} (l : list A) (i : Z) : res A :=
  let j := if i <? 0 then i + len l else i in
  if (j <? 0) || (len l <=? j) then Raise IndexError
  else match l !! Z.to_nat j with
       | Some a => Ok a
       | None => Raise IndexError
       end.

(** [l[:stop]]: a negative [stop] counts from the end, and the bound is
    clamped to [0 .. len(l)]; slicing never raises. *)
Definition slice_to {A} (l : list A) (stop : Z) : list A :=
  let s := if stop <? 0 then Z.max 0 (stop + len l) else Z.min stop (len l) in
  take (Z.to_nat s) l.

(** Number of elements of [range(start, stop, step)], as CPython counts. *)
Definition range_len (start stop step : Z) : Z :=
  if 0 <? step then
    if start <? stop then (stop - start - 1) / step + 1 else 0
  else
    if stop <? start then (start - stop - 1) / (- step) + 1 else 0.

(** [range(start, stop, step)]; a zero step raises [ValueError]. *)
Definition range (start stop step : Z) : res (list Z) :=
  if step =? 0 then Raise ValueError
  else Ok ((fun k => start + k * step) <$> seqZ 0 (range_len start stop step)).

(** [list(range(n))] *)
Definition range1 (n : Z) : list Z := seqZ 0 n.

(** [min(l)] on floats: the running minimum is replaced when the next item
    compares strictly below it; the empty list raises [ValueError]. *)
Definition min (l : list float) : res float :=
  match l with
  | [] => Raise ValueError
  | x :: xs => Ok (fold_left (fun cur item => if PrimFloat.ltb item cur then item else cur) xs x)
  end.

(** [max(l)] on floats: replaced when the next item compares strictly above. *)
Definition max (l : list float) : res float :=
  match l with
  | [] => Raise ValueError
  | x :: xs => Ok (fold_left (fun cur item => if PrimFloat.ltb cur item then item else cur) xs x)
  end.

(** Truth value of an optional list argument: [None] and [[]] are false. *)
Definition truthy {A} (o : option (list A)) : bool :=
  match o with
  | Some (_ :: _) => true
  | _ => false
  end.

(** *** Fixed-point formatting, [format(x, ".pf")] *)

(** Decimal digits of [n]. *)
Definition digits (n : N) : string := NilZero.string_of_uint (N.to_uint n).

Fixpoint zeros (k : nat) : string :=
  match k with
  | O => EmptyString
  | S k' => String "0" (zeros k')
  end.

(** The digits of [n], left-padded with zeros to [width] characters. *)
Definition pad_digits (width : nat) (n : N) : string :=
  let d := digits n in
  String.append (zeros (width - String.length d)) d.

(** [m * 2^e * 10^p] rounded to an integer, ties to even: the value a
    correctly rounded conversion prints. *)
Definition round_scaled (m : positive) (e : Z) (p : nat) : Z :=
  let n := Z.pos m * 10 ^ Z.of_nat p in
  if 0 <=? e then n * 2 ^ e
  else
    let d := 2 ^ (- e) in
    let q := n / d in
    let r := n mod d in
    match 2 * r ?= d with
    | Lt => q
    | Gt => q + 1
    | Eq => if Z.even q then q else q + 1
    end.

Definition fixed_of_scaled (neg : bool) (n : Z) (p : nat) : string :=
  let unit := 10 ^ Z.of_nat p in
  let whole := digits (Z.to_N (n / unit)) in
  let frac := match p with
              | O => EmptyString
              | _ => String "." (pad_digits p (Z.to_N (n mod unit)))
              end in
  String.append (if neg then "-" else EmptyString) (String.append whole frac).

Definition format_fixed (p : nat) (x : float) : string :=
  match Prim2SF x with
  | S754_nan => "nan"
  | S754_infinity s => if s then "-inf" else "inf"
  | S754_zero s => fixed_of_scaled s 0 p
  | S754_finite s m e => fixed_of_scaled s (round_scaled m e p) p
  end.

End Py.

Import Py.

(** ** The plotting backend, as far as the module drives it

    A figure owns a store of line objects; an axes lists the ids of the
    objects it currently shows.  [plot] creates an object and returns its id,
    [set_data] mutates an object in place (whether or not an axes still shows
    it), and [clear] empties an axes and resets its decorations.  Limits are
    recorded as requested, once the backend has checked that they are finite;
    [None] stands for "left to autoscaling".  Purely
    cosmetic keyword arguments (line width, marker size, legend label, grid
    transparency, figure size) are not recorded. *)

Module Mpl.

Record Line2D : Set := mkLine {
  xdata : list num;
  ydata : list num;
  fmt : string
}.

Record Axes : Set := mkAxes {
  title : string;
  xlabel : string;
  ylabel : string;
  xlim : option (num * num);
  ylim : option (num * num);
  grid : bool;
  legend : bool;
  children : list nat
}.

Inductive axis : Set := Ax1 | Ax2 | Ax3.

Record Figure : Set := mkFigure {
  suptitle : string;
  lines : list Line2D;
  ax1 : Axes;
  ax2 : Axes;
  ax3 : Axes
}.

Definition new_axes : Axes :=
  mkAxes EmptyString EmptyString EmptyString None None false false [].

(** [plt.subplots(1, 3)] *)
Definition subplots : Figure := mkFigure EmptyString [] new_axes new_axes new_axes.

Definition ax (a : axis) (fig : Figure) : Axes :=
  match a with
  | Ax1 => ax1 fig
  | Ax2 => ax2 fig
  | Ax3 => ax3 fig
  end.

Definition with_ax (a : axis) (f : Axes -> Axes) (fig : Figure) : Figure :=
  match a with
  | Ax1 => mkFigure (suptitle fig) (lines fig) (f (ax1 fig)) (ax2 fig) (ax3 fig)
  | Ax2 => mkFigure (suptitle fig) (lines fig) (ax1 fig) (f (ax2 fig)) (ax3 fig)
  | Ax3 => mkFigure (suptitle fig) (lines fig) (ax1 fig) (ax2 fig) (f (ax3 fig))
  end.

Definition set_suptitle (s : string) (fig : Figure) : Figure :=
  mkFigure s (lines fig) (ax1 fig) (ax2 fig) (ax3 fig).

Definition set_title (a : axis) (s : string) : Figure -> Figure :=
  with_ax a (fun x => mkAxes s (xlabel x) (ylabel x) (xlim x) (ylim x) (grid x) (legend x) (children x)).

Definition set_xlabel (a : axis) (s : string) : Figure -> Figure :=
  with_ax a (fun x => mkAxes (title x) s (ylabel x) (xlim x) (ylim x) (grid x) (legend x) (children x)).

Definition set_ylabel (a : axis) (s : string) : Figure -> Figure :=
  with_ax a (fun x => mkAxes (title x) (xlabel x) s (xlim x) (ylim x) (grid x) (legend x) (children x)).

(** A limit the backend accepts: an integer, or a float that is neither NaN
    nor infinite. *)
Definition finite_limit (n : num) : bool :=
  match n with
  | PyInt _ => true
  | PyFloat f => PrimFloat.is_finite f
  end.

(** [ax.set_xlim(lo, hi)]: a NaN or infinite limit raises [ValueError]
    ("Axis limits cannot be NaN or Inf"); otherwise the limits are recorded. *)
Definition set_xlim (a : axis) (lo hi : num) (fig : Figure) : res Figure :=
  if finite_limit lo && finite_limit hi then
    Ok (with_ax a (fun x => mkAxes (title x) (xlabel x) (ylabel x) (Some (lo, hi)) (ylim x)
                              (grid x) (legend x) (children x)) fig)
  else Raise ValueError.

(** [ax.set_ylim(lo, hi)], with the same check. *)
Definition set_ylim (a : axis) (lo hi : num) (fig : Figure) : res Figure :=
  if finite_limit lo && finite_limit hi then
    Ok (with_ax a (fun x => mkAxes (title x) (xlabel x) (ylabel x) (xlim x) (Some (lo, hi))
                              (grid x) (legend x) (children x)) fig)
  else Raise ValueError.

Definition set_grid (a : axis) (b : bool) : Figure -> Figure :=
  with_ax a (fun x => mkAxes (title x) (xlabel x) (ylabel x) (xlim x) (ylim x) b (legend x) (children x)).

Definition add_legend (a : axis) : Figure -> Figure :=
  with_ax a (fun x => mkAxes (title x) (xlabel x) (ylabel x) (xlim x) (ylim x) (grid x) true (children x)).

(** [ax.clear()]: every artist leaves the axes, decorations and limits go
    back to their defaults.  The objects themselves stay in the store. *)
Definition clear (a : axis) : Figure -> Figure :=
  with_ax a (fun _ => new_axes).

(** [ax.plot(xs, ys, fmt)]: a fresh line object, shown by [a]. *)
Definition plot (a : axis) (xs ys : list num) (f : string) (fig : Figure) : Figure * nat :=
  let id := length (lines fig) in
  let fig' := mkFigure (suptitle fig) (lines fig ++ [mkLine xs ys f]) (ax1 fig) (ax2 fig) (ax3 fig) in
  (with_ax a (fun x => mkAxes (title x) (xlabel x) (ylabel x) (xlim x) (ylim x) (grid x) (legend x)
                         (children x ++ [id])) fig', id).

(** [obj.set_data(xs, ys)]: in-place update of the object [id]; its
    format string stays. *)
Definition set_data (id : nat) (xs ys : list num) (fig : Figure) : Figure :=
  mkFigure (suptitle fig) (alter (fun l => mkLine xs ys (fmt l)) id (lines fig))
    (ax1 fig) (ax2 fig) (ax3 fig).

(** What an axes shows: its children, read through the store. *)
Definition drawn (a : axis) (fig : Figure) : list Line2D :=
  omap (fun id => lines fig !! id) (children (ax a fig)).

End Mpl.

Import Mpl.

(** ** [animateTSP] *)

(** The five line objects the closures [init] and [update] capture. *)
Record Handles : Set := mkHandles {
  line : nat;
  temp_line : nat;
  temp_points : nat;
  cost_line : nat;
  cost_points : nat
}.

(** The statements of [animateTSP] before the closures: figure, titles,
    labels and the five (still empty) line objects. *)
Definition setup : Figure * Handles :=
  let fig := subplots in
  let fig := set_suptitle "TSP Simulated Annealing Visualization" fig in
  let fig := set_title Ax1 "TSP Path" fig in
  let '(fig, line) := plot Ax1 [] [] "b-" fig in
  let fig := set_title Ax2 "Temperature" fig in
  let fig := set_xlabel Ax2 "Iteration" fig in
  let fig := set_ylabel Ax2 "Temperature" fig in
  let '(fig, temp_line) := plot Ax2 [] [] "r-" fig in
  let '(fig, temp_points) := plot Ax2 [] [] "ro" fig in
  let fig := set_title Ax3 "Cost Function" fig in
  let fig := set_xlabel Ax3 "Iteration" fig in
  let fig := set_ylabel Ax3 "Cost" fig in
  let '(fig, cost_line) := plot Ax3 [] [] "g-" fig in
  let '(fig, cost_points) := plot Ax3 [] [] "go" fig in
  (fig, mkHandles line temp_line temp_points cost_line cost_points).

(** What distinguishes the temperature block from the cost block, which the
    source writes out twice, in [init] and again in [update]. *)
Record Panel : Set := mkPanel {
  panel_axis : axis;
  panel_line : Handles -> nat;
  panel_points : Handles -> nat;
  line_fmt : string;
  marker_fmt : string;
  title_prefix : string;
  title_digits : nat;
  y_label : string;
  lower_factor : float;
  upper_factor : float
}.

Definition temperature_panel : Panel :=
  mkPanel Ax2 temp_line temp_points "r-" "ro" "Temperature: " 6 "Temperature" 0.9 1.1.

Definition cost_panel : Panel :=
  mkPanel Ax3 cost_line cost_points "g-" "go" "Cost: " 2 "Cost" 0.95 1.05.

(** The frame budget in [len(history) // 9000]. *)
Definition FRAME_BUDGET : Z := 9000.

(** [key_frames_mult = max(1, len(history) // 9000)] *)
Definition key_frames_mult (history : list (list Z)) : Z :=
  Z.max 1 (len history / FRAME_BUDGET).

(** [frames=range(0, len(history), key_frames_mult)] *)
Definition frames (history : list (list Z)) : res (list Z) :=
  range 0 (len history) (key_frames_mult history).

Section Closures.

(** The arguments of [animateTSP].  [points] is the N x 2 coordinate
    array, [history] the recorded tours, and the two optional histories
    default to [None]. *)
Variable history : list (list Z).
Variable points : list (float * float).
Variable temp_history : option (list float).
Variable weight_history : option (list float).

(** The line objects created before the closures are defined. *)
Variable h : Handles.

(** [[points[i][0] for i in tour]] and [[points[i, 0] for i in tour]] *)
Definition column0 (tour : list Z) : res (list float) :=
  mapM (fun i => p ← getitem points i; mret (fst p)) tour.

(** [[points[i][1] for i in tour]] and [[points[i, 1] for i in tour]] *)
Definition column1 (tour : list Z) : res (list float) :=
  mapM (fun i => p ← getitem points i; mret (snd p)) tour.

(** The temperature and the cost block of [init]:
    [if series: ax.set_xlim(0, len(series)); ax.set_ylim(min(series) * lo, max(series) * hi); ax.grid(True)]
    followed by emptying the two line objects of the panel. *)
Definition init_panel (p : Panel) (series : option (list float)) (fig : Figure) : res Figure :=
  let hist := default [] series in
  fig ← (if truthy series then
           fig ← set_xlim (panel_axis p) (PyInt 0) (PyInt (len hist)) fig;
           lo ← Py.min hist;
           hi ← Py.max hist;
           fig ← set_ylim (panel_axis p)
                   (PyFloat (lo * lower_factor p)%float)
                   (PyFloat (hi * upper_factor p)%float) fig;
           mret (set_grid (panel_axis p) true fig)
         else mret fig);
  let fig := set_data (panel_line p h) [] [] fig in
  mret (set_data (panel_points p h) [] [] fig).

(** [init()] *)
Definition init (fig : Figure) : res Figure :=
  tour ← getitem history 0;
  x ← column0 tour;
  y ← column1 tour;
  let fig := fst (plot Ax1 (PyFloat <$> x) (PyFloat <$> y) "co" fig) in
  max_x ← Py.max x;
  min_x ← Py.min x;
  let extra_x := ((max_x - min_x) * 0.05)%float in
  max_y ← Py.max y;
  min_y ← Py.min y;
  let extra_y := ((max_y - min_y) * 0.05)%float in
  lo_x ← Py.min x;
  hi_x ← Py.max x;
  fig ← set_xlim Ax1 (PyFloat (lo_x - extra_x)%float) (PyFloat (hi_x + extra_x)%float) fig;
  lo_y ← Py.min y;
  hi_y ← Py.max y;
  fig ← set_ylim Ax1 (PyFloat (lo_y - extra_y)%float) (PyFloat (hi_y + extra_y)%float) fig;
  let fig := add_legend Ax1 fig in
  let fig := set_data (line h) [] [] fig in
  fig ← init_panel temperature_panel temp_history fig;
  init_panel cost_panel weight_history fig.

(** The tour block of [update]. *)
Definition update_path (actual_frame : Z) (fig : Figure) : res Figure :=
  if actual_frame <? len history then
    tour ← getitem history actual_frame;
    first ← getitem tour 0;
    x ← column0 (tour ++ [first]);
    y ← column1 (tour ++ [first]);
    mret (set_data (line h) (PyFloat <$> x) (PyFloat <$> y) fig)
  else mret fig.

(** The temperature and the cost block of [update]: guarded by
    [series and actual_frame < len(series)]; sets the two line objects, then
    clears the axes and plots the prefix and the marker afresh, with the
    title, the labels, the grid and the limits. *)
Definition update_panel (p : Panel) (series : option (list float)) (actual_frame : Z)
    (fig : Figure) : res Figure :=
  let hist := default [] series in
  if truthy series && (actual_frame <? len hist) then
    let iterations := PyInt <$> range1 (actual_frame + 1) in
    let values := PyFloat <$> slice_to hist (actual_frame + 1) in
    let fig := set_data (panel_line p h) iterations values fig in
    cur ← getitem hist actual_frame;
    let fig := set_data (panel_points p h) [PyInt actual_frame] [PyFloat cur] fig in
    let fig := clear (panel_axis p) fig in
    let fig := fst (plot (panel_axis p) iterations values (line_fmt p) fig) in
    cur ← getitem hist actual_frame;
    let fig := fst (plot (panel_axis p) [PyInt actual_frame] [PyFloat cur] (marker_fmt p) fig) in
    cur ← getitem hist actual_frame;
    let fig := set_title (panel_axis p)
                 (String.append (title_prefix p) (format_fixed (title_digits p) cur)) fig in
    let fig := set_xlabel (panel_axis p) "Iteration" fig in
    let fig := set_ylabel (panel_axis p) (y_label p) fig in
    let fig := set_grid (panel_axis p) true fig in
    if 0 <? len hist then
      fig ← set_xlim (panel_axis p) (PyInt 0) (PyInt (len hist)) fig;
      lo ← Py.min hist;
      hi ← Py.max hist;
      set_ylim (panel_axis p)
        (PyFloat (lo * lower_factor p)%float)
        (PyFloat (hi * upper_factor p)%float) fig
    else mret fig
  else mret fig.

(** [update(frame)] *)
Definition update (frame : Z) (fig : Figure) : res Figure :=
  let actual_frame := frame * key_frames_mult history in
  fig ← update_path actual_frame fig;
  fig ← update_panel temperature_panel temp_history actual_frame fig;
  update_panel cost_panel weight_history actual_frame fig.

(** The animation loop: [update] is called once per enumerated frame, in
    order, with no repeat.  The result lists the figure after each frame
    that was drawn, and the exception that stopped the loop, if any. *)
Fixpoint play (fs : list Z) (fig : Figure) : list (Z * Figure) * option exn :=
  match fs with
  | [] => ([], None)
  | f :: fs' =>
      match update f fig with
      | Ok fig' => let r := play fs' fig' in ((f, fig') :: fst r, snd r)
      | Raise e => ([], Some e)
      end
  end.

End Closures.

(** How a call of [animateTSP] ends. *)
Inductive Outcome : Set :=
| SetupRaised (e : exn)
    (** building the frame range raised, before the animation exists *)
| InitRaised (e : exn)
    (** [init] raised: nothing was drawn *)
| Played (fig0 : Figure) (drawn_frames : list (Z * Figure)) (stopped : option exn).
    (** [init] gave [fig0]; then the listed frames were drawn *)

(** [animateTSP(history, points, temp_history, weight_history)]: the set-up,
    the frame range, [init] once, then [update] on each frame. *)
Definition animateTSP (history : list (list Z)) (points : list (float * float))
    (temp_history weight_history : option (list float)) : Outcome :=
  let fig := fst setup in
  let h := snd setup in
  match frames history with
  | Raise e => SetupRaised e
  | Ok fs =>
      match init history points temp_history weight_history h fig with
      | Raise e => InitRaised e
      | Ok fig0 =>
          let r := play history points temp_history weight_history h fs fig0 in
          Played fig0 (fst r) (snd r)
      end
  end.


(** ** Vocabulary of the statements *)

(** The five captured objects exist in the figure's store and are pairwise
    distinct, as they are from [setup] on. *)
Definition handles_ok (h : Handles) (fig : Figure) : Prop :=
  NoDup [line h; temp_line h; temp_points h; cost_line h; cost_points h] /\
  Forall (fun id => (id < length (lines fig))%nat)
    [line h; temp_line h; temp_points h; cost_line h; cost_points h].

(** The guard [series and actual_frame < len(series)] of a panel block of
    [update] is false: the history is absent, empty, or too short. *)
Definition panel_skipped (series : option (list float)) (actual_frame : Z) : Prop :=
  series = None \/ series = Some [] \/ exists l, series = Some l /\ len l <= actual_frame.

(** The limits both panel blocks request for a non-empty history:
    [(0, len(series))] and [(min(series) * lo, max(series) * hi)]. *)
Definition panel_xlim (hist : list float) : num * num := (PyInt 0, PyInt (len hist)).

Definition panel_ylim (p : Panel) (lo hi : float) : num * num :=
  (PyFloat (lo * lower_factor p)%float, PyFloat (hi * upper_factor p)%float).

(** The vertices of a tour closed into a cycle: its points, then the first
    point again. *)
Definition closed_path (pts : list (float * float)) : list (float * float) :=
  pts ++ take 1 pts.

(** The [x] and the [y] sequence a vertex list is handed to the backend as. *)
Definition xs_of (pts : list (float * float)) : list num := PyFloat <$> (fst <$> pts).
Definition ys_of (pts : list (float * float)) : list num := PyFloat <$> (snd <$> pts).

(** ** Recorded runs used as examples *)

(** Three cities on a right triangle. *)
Definition triangle : list (float * float) :=
  [(0.0, 0.0); (1.0, 0.0); (1.0, 1.0)]%float.

(** Two tours over the triangle. *)
Definition two_tours : list (list Z) := [[0; 1; 2]; [1; 2; 0]].

(** Three tours over the triangle, with a three-step cooling trace. *)
Definition three_tours : list (list Z) := [[0; 1; 2]; [1; 2; 0]; [2; 0; 1]].
Definition cooling : list float := [100.0; 50.0; 10.0]%float.

(** Ten tours over the triangle, with a cost trace that stops after five. *)
Definition ten_tours : list (list Z) :=
  [[0; 1; 2]; [1; 2; 0]; [2; 0; 1]; [0; 2; 1]; [2; 1; 0];
   [1; 0; 2]; [0; 1; 2]; [1; 2; 0]; [2; 0; 1]; [0; 2; 1]].
Definition five_costs : list float := [3.5; 3.25; 3.0; 2.75; 2.5]%float.

(** A full tour and a partial first tour over four cities, the fourth far
    from the others. *)
Definition four_cities : list (float * float) :=
  [(0.0, 0.0); (1.0, 0.0); (1.0, 1.0); (5.0, 5.0)]%float.
Definition partial_first : list (list Z) := [[0; 1; 2]; [0; 1; 2; 3]].

(** A first tour over two cities, then a tour that names a city that does
    not exist. *)
Definition two_cities : list (float * float) := [(0.0, 0.0); (1.0, 0.0)]%float.
Definition bad_second : list (list Z) := [[0; 1]; [0; 5]].

(** A long run: 90000 one-city tours over seven cities on a line, tour [k]
    visiting city [k mod 7]. *)
Definition seven_cities : list (float * float) :=
  [(0.0, 0.0); (1.0, 0.0); (2.0, 0.0); (3.0, 0.0); (4.0, 0.0); (5.0, 0.0); (6.0, 0.0)]%float.
Definition long_run : list (list Z) := (fun k => [k mod 7]) <$> seqZ 0 90000.

(** ** Bounding boxes *)

(** The interval [lo .. hi] widened on both sides by 5% of its span, as
    [init] computes it: [extra = (hi - lo) * 0.05], then
    [(lo - extra, hi + extra)]. *)
Definition padded (lo hi : float) : num * num :=
  (PyFloat (lo - (hi - lo) * 0.05)%float, PyFloat (hi + (hi - lo) * 0.05)%float).

(** The axes [x] carry the padded bounding box of the coordinates [xs], [ys]. *)
Definition bounding_box (xs ys : list float) (x : Axes) : Prop :=
  exists lo_x hi_x lo_y hi_y,
    Py.min xs = Ok lo_x /\ Py.max xs = Ok hi_x /\
    Py.min ys = Ok lo_y /\ Py.max ys = Ok hi_y /\
    xlim x = Some (padded lo_x hi_x) /\ ylim x = Some (padded lo_y hi_y).

(** ** Well-formed input *)

(** [i] is an index Python accepts for [points]: from [-len] to [len - 1]. *)
Definition valid_index (points : list (float * float)) (i : Z) : Prop :=
  - len points <= i < len points.

(** A tour that [init] and [update] can draw: it visits at least one city
    and names only cities that exist. *)
Definition drawable (points : list (float * float)) (tour : list Z) : Prop :=
  tour <> [] /\ Forall (valid_index points) tour.

(** ** Finite limits *)

(** Both limits of an interval are finite. *)
Definition finite_limits (l : num * num) : bool :=
  finite_limit (fst l) && finite_limit (snd l).

(** The vertical limits a panel block computes from a non-empty history are
    both finite, so that [set_ylim] accepts them; vacuous without a history. *)
Definition panel_limits_finite (p : Panel) (series : option (list float)) : bool :=
  match series with
  | Some (x :: xs) =>
      match Py.min (x :: xs), Py.max (x :: xs) with
      | Ok lo, Ok hi => finite_limits (panel_ylim p lo hi)
      | _, _ => false
      end
  | _ => true
  end.

(** The padded bounding box [init] computes from the points of [tour] has
    finite limits on both axes, so that [set_xlim] and [set_ylim] accept it. *)
Definition box_finite (points : list (float * float)) (tour : list Z) : bool :=
  match column0 points tour, column1 points tour with
  | Ok xs, Ok ys =>
      match Py.min xs, Py.max xs, Py.min ys, Py.max ys with
      | Ok lo_x, Ok hi_x, Ok lo_y, Ok hi_y =>
          finite_limits (padded lo_x hi_x) && finite_limits (padded lo_y hi_y)
      | _, _, _, _ => false
      end
  | _, _ => false
  end.
(** ** Small checks of the Python built-ins *)

Example getitem_wraps : getitem [10; 20; 30] (-1) = Ok 30.
Proof. reflexivity. Qed.

Example getitem_out_of_range : getitem [10; 20; 30] 3 = Raise IndexError.
Proof. reflexivity. Qed.

Example range_with_step : range 0 10 3 = Ok [0; 3; 6; 9].
Proof. reflexivity. Qed.

Example format_fixed_50 : format_fixed 6 50.0%float = "50.000000"%string.
Proof. vm_compute. reflexivity. Qed.

Example format_fixed_tie : format_fixed 2 0.125%float = "0.12"%string.
Proof. vm_compute. reflexivity. Qed.

Example format_fixed_neg : format_fixed 2 (-3.14159)%float = "-3.14"%string.
Proof. vm_compute. reflexivity. Qed.

(** ** Facts about the backend operations *)

Section BackendFacts.

Implicit Types (fig : Figure) (a b : axis) (id : nat).

Lemma ax_set_data a id xs ys fig : ax a (set_data id xs ys fig) = ax a fig.
Proof. by destruct a. Qed.

Lemma lookup_set_data_other id id' xs ys fig :
  id <> id' -> lines (set_data id xs ys fig) !! id' = lines fig !! id'.
Proof. intros. by apply list_lookup_alter_ne. Qed.

Lemma lookup_set_data_same id xs ys fig old :
  lines fig !! id = Some old ->
  lines (set_data id xs ys fig) !! id = Some (mkLine xs ys (fmt old)).
Proof. intros Hold. cbn. by rewrite list_lookup_alter_eq, Hold. Qed.

Lemma length_set_data id xs ys fig :
  length (lines (set_data id xs ys fig)) = length (lines fig).
Proof. apply length_alter. Qed.

Lemma set_xlim_int a (lo hi : Z) fig :
  set_xlim a (PyInt lo) (PyInt hi) fig =
    Ok (with_ax a (fun x => mkAxes (title x) (xlabel x) (ylabel x) (Some (PyInt lo, PyInt hi))
                              (ylim x) (grid x) (legend x) (children x)) fig).
Proof. reflexivity. Qed.

Lemma set_xlim_finite a lo hi fig :
  finite_limits (lo, hi) = true ->
  set_xlim a lo hi fig =
    Ok (with_ax a (fun x => mkAxes (title x) (xlabel x) (ylabel x) (Some (lo, hi))
                              (ylim x) (grid x) (legend x) (children x)) fig).
Proof. unfold finite_limits, set_xlim. cbn [fst snd]. by intros ->. Qed.

Lemma set_ylim_finite a lo hi fig :
  finite_limits (lo, hi) = true ->
  set_ylim a lo hi fig =
    Ok (with_ax a (fun x => mkAxes (title x) (xlabel x) (ylabel x) (xlim x) (Some (lo, hi))
                              (grid x) (legend x) (children x)) fig).
Proof. unfold finite_limits, set_ylim. cbn [fst snd]. by intros ->. Qed.

Lemma set_xlim_not_finite a lo hi fig :
  finite_limits (lo, hi) = false -> set_xlim a lo hi fig = Raise ValueError.
Proof. unfold finite_limits, set_xlim. cbn [fst snd]. by intros ->. Qed.

Lemma set_ylim_not_finite a lo hi fig :
  finite_limits (lo, hi) = false -> set_ylim a lo hi fig = Raise ValueError.
Proof. unfold finite_limits, set_ylim. cbn [fst snd]. by intros ->. Qed.

Lemma set_xlim_Ok_inv a lo hi fig fig' :
  set_xlim a lo hi fig = Ok fig' ->
  finite_limits (lo, hi) = true /\
  fig' = with_ax a (fun x => mkAxes (title x) (xlabel x) (ylabel x) (Some (lo, hi))
                               (ylim x) (grid x) (legend x) (children x)) fig.
Proof.
  unfold set_xlim, finite_limits. cbn [fst snd].
  destruct (_ && _); [|discriminate]. by intros [= <-].
Qed.

Lemma set_ylim_Ok_inv a lo hi fig fig' :
  set_ylim a lo hi fig = Ok fig' ->
  finite_limits (lo, hi) = true /\
  fig' = with_ax a (fun x => mkAxes (title x) (xlabel x) (ylabel x) (xlim x) (Some (lo, hi))
                               (grid x) (legend x) (children x)) fig.
Proof.
  unfold set_ylim, finite_limits. cbn [fst snd].
  destruct (_ && _); [|discriminate]. by intros [= <-].
Qed.

End BackendFacts.

(** ** Facts about the Python built-ins *)

Section PyFacts.

Context {A : Type}.
Implicit Types (l : list A) (i : Z).

Lemma len_nonneg l : 0 <= len l.
Proof. unfold len. lia. Qed.

Lemma getitem_in_range l i x :
  0 <= i -> l !! Z.to_nat i = Some x -> getitem l i = Ok x.
Proof.
  intros Hi Hx. unfold getitem.
  apply lookup_lt_Some in Hx as Hlt.
  destruct (Z.ltb_spec i 0); [lia|].
  destruct (Z.ltb_spec i 0); [lia|].
  destruct (Z.leb_spec (len l) i); [unfold len in *; lia|].
  cbn. by rewrite Hx.
Qed.

Lemma getitem_Ok_nonneg l i x :
  0 <= i -> getitem l i = Ok x -> l !! Z.to_nat i = Some x /\ i < len l.
Proof.
  intros Hi. unfold getitem.
  destruct (Z.ltb_spec i 0); [lia|].
  destruct (Z.ltb_spec i 0); [lia|].
  destruct (Z.leb_spec (len l) i); cbn; [discriminate|].
  destruct (l !! Z.to_nat i); [|discriminate].
  intros [= ->]. done.
Qed.

Lemma getitem_raises l i e : getitem l i = Raise e -> e = IndexError.
Proof.
  unfold getitem.
  destruct (_ || _); [by intros [= <-]|].
  destruct (l !! _); [discriminate|by intros [= <-]].
Qed.

Lemma slice_to_prefix l s :
  0 <= s <= len l -> slice_to l s = take (Z.to_nat s) l.
Proof.
  intros Hs. unfold slice_to.
  destruct (Z.ltb_spec s 0); [lia|].
  by rewrite Z.min_l by lia.
Qed.

End PyFacts.

Lemma Ok_inj {A} (a b : A) : Ok a = Ok b -> a = b.
Proof. by intros [= ->]. Qed.

Lemma truthy_Some_inv {A} (series : option (list A)) :
  truthy series = true -> exists x xs, series = Some (x :: xs).
Proof. destruct series as [[|x xs]|]; cbn; try discriminate. by exists x, xs. Qed.

Lemma panel_skipped_guard series a :
  panel_skipped series a <->
  truthy series && (a <? len (default [] series)) = false.
Proof.
  split.
  - intros [->|[->|(l & -> & Hl)]]; [done..|].
    cbn. destruct (Z.ltb_spec a (len l)); [lia|]. by rewrite andb_false_r.
  - destruct series as [[|x xs]|]; cbn; intros Hg.
    + right; by left.
    + right; right. eexists; split; [done|].
      by destruct (Z.ltb_spec a (len (x :: xs))).
    + by left.
Qed.

(** ** One panel block of [update] *)

Section PanelFacts.

Variable h : Handles.
Implicit Types (p : Panel) (series : option (list float)) (fig : Figure).

(** Guard false: the block does nothing at all. *)
Lemma update_panel_skip p series a fig :
  panel_skipped series a -> update_panel h p series a fig = Ok fig.
Proof.
  intros Hs%panel_skipped_guard. unfold update_panel. by rewrite Hs.
Qed.

(** The only call of a panel block that can raise is [set_ylim]. *)
Lemma update_panel_in_range p x xs a cur fig :
  0 <= a ->
  (x :: xs) !! Z.to_nat a = Some cur ->
  exists fig1 lo hi,
    Py.min (x :: xs) = Ok lo /\ Py.max (x :: xs) = Ok hi /\
    update_panel h p (Some (x :: xs)) a fig =
      set_ylim (panel_axis p) (fst (panel_ylim p lo hi)) (snd (panel_ylim p lo hi)) fig1 /\
    suptitle fig1 = suptitle fig.
Proof.
  intros Ha Hcur.
  pose proof (getitem_in_range _ _ _ Ha Hcur) as Hget.
  apply lookup_lt_Some in Hcur as Hlt.
  assert (a < len (x :: xs)) as Hlen by (unfold len; lia).
  unfold update_panel.
  cbn [default from_option id truthy andb].
  rewrite (proj2 (Z.ltb_lt a _) Hlen), (proj2 (Z.ltb_lt 0 _)) by lia.
  rewrite Hget. cbn [mbind res_bind].
  eexists _, _, _. split; [reflexivity|]. split; [reflexivity|]. split; [reflexivity|].
  by destruct (panel_axis p).
Qed.

(** Guard true and non-finite limits: the block raises [ValueError]. *)
Lemma update_panel_not_finite p hist a cur fig :
  0 <= a ->
  hist !! Z.to_nat a = Some cur ->
  panel_limits_finite p (Some hist) = false ->
  update_panel h p (Some hist) a fig = Raise ValueError.
Proof.
  intros Ha Hcur Hfin. destruct hist as [|x xs]; [done|].
  destruct (update_panel_in_range p x xs a cur fig Ha Hcur)
    as (fig1 & lo & hi & Hlo & Hhi & -> & _).
  unfold panel_limits_finite in Hfin. rewrite Hlo, Hhi in Hfin.
  by apply set_ylim_not_finite.
Qed.

(** Guard true and finite limits: the block raises nothing, and the figure it
    leaves is known field by field. *)
Lemma update_panel_repaint p hist a cur fig :
  0 <= a ->
  hist !! Z.to_nat a = Some cur ->
  panel_limits_finite p (Some hist) = true ->
  exists fig' lo hi,
    update_panel h p (Some hist) a fig = Ok fig' /\
    Py.min hist = Ok lo /\ Py.max hist = Ok hi /\
    ax (panel_axis p) fig' =
      mkAxes (String.append (title_prefix p) (format_fixed (title_digits p) cur))
        "Iteration" (y_label p) (Some (panel_xlim hist)) (Some (panel_ylim p lo hi))
        true false [length (lines fig); S (length (lines fig))] /\
    (forall b, b <> panel_axis p -> ax b fig' = ax b fig) /\
    lines fig' =
      alter (fun l => mkLine [PyInt a] [PyFloat cur] (fmt l)) (panel_points p h)
        (alter (fun l => mkLine (PyInt <$> range1 (a + 1))
                           (PyFloat <$> take (Z.to_nat (a + 1)) hist) (fmt l))
           (panel_line p h) (lines fig))
      ++ [mkLine (PyInt <$> range1 (a + 1)) (PyFloat <$> take (Z.to_nat (a + 1)) hist) (line_fmt p);
          mkLine [PyInt a] [PyFloat cur] (marker_fmt p)].
Proof.
  intros Ha Hcur Hfin.
  pose proof (getitem_in_range _ _ _ Ha Hcur) as Hget.
  apply lookup_lt_Some in Hcur as Hlt.
  assert (a < len hist) as Hlen by (unfold len; lia).
  destruct hist as [|x xs]; [done|].
  unfold update_panel.
  cbn [default from_option id truthy andb].
  rewrite (proj2 (Z.ltb_lt a _) Hlen), (proj2 (Z.ltb_lt 0 _)) by lia.
  rewrite slice_to_prefix by lia.
  rewrite Hget. cbn [mbind res_bind]. rewrite set_xlim_int. cbn [mbind res_bind Py.min Py.max].
  unfold panel_limits_finite in Hfin. cbn [Py.min Py.max] in Hfin.
  rewrite (set_ylim_finite _ _ _ _ Hfin).
  eexists _, _, _. split; [reflexivity|].
  split; [reflexivity|]. split; [reflexivity|].
  split; [|split].
  - destruct (panel_axis p); cbn;
      rewrite ?length_app, ?length_alter; cbn [length]; by rewrite Nat.add_1_r.
  - intros b Hb. destruct (panel_axis p), b; done.
  - destruct (panel_axis p); cbn; by rewrite <- app_assoc.
Qed.

(** A block that returned with its guard true had finite limits. *)
Lemma update_panel_Ok_finite p hist a cur fig fig' :
  0 <= a ->
  hist !! Z.to_nat a = Some cur ->
  update_panel h p (Some hist) a fig = Ok fig' ->
  panel_limits_finite p (Some hist) = true.
Proof.
  intros Ha Hcur Hu.
  destruct (panel_limits_finite p (Some hist)) eqn:Hfin; [done|].
  by rewrite (update_panel_not_finite p hist a cur fig Ha Hcur Hfin) in Hu.
Qed.

(** With finite limits, a block raises nothing on a non-negative index,
    whatever its guard. *)
Lemma update_panel_total p series a fig :
  0 <= a ->
  panel_limits_finite p series = true ->
  exists fig', update_panel h p series a fig = Ok fig'.
Proof.
  intros Ha Hfin.
  destruct (decide (truthy series && (a <? len (default [] series)) = false)) as [Hs|Hs].
  - exists fig. by apply update_panel_skip, panel_skipped_guard.
  - apply not_false_is_true, andb_true_iff in Hs as [Ht Hlt].
    apply truthy_Some_inv in Ht as (x & xs & ->). cbn [default from_option id] in Hlt.
    apply Z.ltb_lt in Hlt.
    destruct ((x :: xs) !! Z.to_nat a) as [cur|] eqn:Hcur.
    + destruct (update_panel_repaint p _ _ _ fig Ha Hcur Hfin) as (fig' & _ & _ & Hu & _).
      by exists fig'.
    + apply lookup_ge_None in Hcur. unfold len in Hlt. lia.
Qed.

(** A block touches no axes but its own; its own it either leaves alone or
    gives the limits of the whole history. *)
Lemma update_panel_axes p series a fig fig' :
  0 <= a ->
  update_panel h p series a fig = Ok fig' ->
  (forall b, b <> panel_axis p -> ax b fig' = ax b fig) /\
  (ax (panel_axis p) fig' = ax (panel_axis p) fig \/
   exists hist lo hi,
     series = Some hist /\ Py.min hist = Ok lo /\ Py.max hist = Ok hi /\
     xlim (ax (panel_axis p) fig') = Some (panel_xlim hist) /\
     ylim (ax (panel_axis p) fig') = Some (panel_ylim p lo hi)).
Proof.
  intros Ha Hu.
  destruct (decide (truthy series && (a <? len (default [] series)) = false)) as [Hs|Hs].
  - rewrite update_panel_skip in Hu by by apply panel_skipped_guard.
    injection Hu as <-. split; [done|by left].
  - apply not_false_is_true, andb_true_iff in Hs as [Ht Hlt].
    apply truthy_Some_inv in Ht as (x & xs & ->). cbn [default from_option id] in Hlt.
    apply Z.ltb_lt in Hlt.
    destruct ((x :: xs) !! Z.to_nat a) as [cur|] eqn:Hcur;
      [|apply lookup_ge_None in Hcur; unfold len in Hlt; lia].
    destruct (update_panel_repaint p _ _ _ fig Ha Hcur (update_panel_Ok_finite _ _ _ _ _ _ Ha Hcur Hu))
      as (fig2 & lo & hi & Hu2 & Hlo & Hhi & Hax & Hoth & _).
    rewrite Hu2 in Hu. injection Hu as <-.
    split; [done|]. right. exists (x :: xs), lo, hi.
    rewrite Hax. done.
Qed.

(** A block leaves every stored object alone except the two of its panel,
    and only adds to the store. *)
Lemma update_panel_store p series a fig fig' :
  0 <= a ->
  update_panel h p series a fig = Ok fig' ->
  (length (lines fig) <= length (lines fig'))%nat /\
  forall id, (id < length (lines fig))%nat ->
    id <> panel_line p h -> id <> panel_points p h ->
    lines fig' !! id = lines fig !! id.
Proof.
  intros Ha Hu.
  destruct (decide (truthy series && (a <? len (default [] series)) = false)) as [Hs|Hs].
  - rewrite update_panel_skip in Hu by by apply panel_skipped_guard.
    by injection Hu as <-.
  - apply not_false_is_true, andb_true_iff in Hs as [Ht Hlt].
    apply truthy_Some_inv in Ht as (x & xs & ->). cbn [default from_option id] in Hlt.
    apply Z.ltb_lt in Hlt.
    destruct ((x :: xs) !! Z.to_nat a) as [cur|] eqn:Hcur;
      [|apply lookup_ge_None in Hcur; unfold len in Hlt; lia].
    destruct (update_panel_repaint p _ _ _ fig Ha Hcur (update_panel_Ok_finite _ _ _ _ _ _ Ha Hcur Hu))
      as (fig2 & lo & hi & Hu2 & _ & _ & _ & _ & Hlines).
    rewrite Hu2 in Hu. injection Hu as <-.
    rewrite Hlines. split.
    + rewrite length_app, !length_alter. lia.
    + intros id Hid H1 H2.
      rewrite lookup_app_l by by rewrite !length_alter.
      by rewrite !list_lookup_alter_ne.
Qed.

(** A block can only raise [ValueError], and only with its guard true and a
    non-finite limit. *)
Lemma update_panel_raises p series a fig e :
  0 <= a ->
  update_panel h p series a fig = Raise e ->
  e = ValueError /\ ~ panel_skipped series a /\ panel_limits_finite p series = false.
Proof.
  intros Ha Hu.
  destruct (decide (truthy series && (a <? len (default [] series)) = false)) as [Hs|Hs].
  - rewrite update_panel_skip in Hu by by apply panel_skipped_guard. discriminate.
  - assert (~ panel_skipped series a) as Hns by by rewrite panel_skipped_guard.
    apply not_false_is_true, andb_true_iff in Hs as [Ht Hlt].
    apply truthy_Some_inv in Ht as (x & xs & ->). cbn [default from_option id] in Hlt.
    apply Z.ltb_lt in Hlt.
    destruct ((x :: xs) !! Z.to_nat a) as [cur|] eqn:Hcur;
      [|apply lookup_ge_None in Hcur; unfold len in Hlt; lia].
    destruct (panel_limits_finite p (Some (x :: xs))) eqn:Hfin.
    + destruct (update_panel_repaint p _ _ _ fig Ha Hcur Hfin) as (fig' & _ & _ & Hu' & _).
      congruence.
    + rewrite (update_panel_not_finite p _ a cur fig Ha Hcur Hfin) in Hu.
      by injection Hu as <-.
Qed.

End PanelFacts.

(** ** The error monad and list comprehensions *)

Lemma bind_Ok_inv {A B} (m : res A) (f : A -> res B) (b : B) :
  m ≫= f = Ok b -> exists a, m = Ok a /\ f a = Ok b.
Proof. intros H. destruct m as [a|e]; cbn in H; [by exists a|discriminate]. Qed.

Section Comprehensions.

Variable points : list (float * float).

Lemma mapM_app_Ok {A B} (f : A -> res B) (l1 l2 : list A) (r1 r2 : list B) :
  mapM f l1 = Ok r1 -> mapM f l2 = Ok r2 -> mapM f (l1 ++ l2) = Ok (r1 ++ r2).
Proof.
  revert r1. induction l1 as [|x l1 IH]; intros r1; cbn.
  - by intros [= <-].
  - intros (y & Hy & H)%bind_Ok_inv. apply bind_Ok_inv in H as (k & Hk & [= <-]).
    intros H2. rewrite Hy. cbn. by rewrite (IH _ Hk H2).
Qed.

Lemma mapM_length {A B} (f : A -> res B) (l : list A) (r : list B) :
  mapM f l = Ok r -> length r = length l.
Proof.
  revert r. induction l as [|x l IH]; intros r; cbn.
  - by intros [= <-].
  - intros (y & Hy & H)%bind_Ok_inv. apply bind_Ok_inv in H as (k & Hk & [= <-]).
    cbn. by rewrite (IH _ Hk).
Qed.

(** A comprehension over valid indices raises nothing; over a list with an
    invalid index it raises [IndexError]. *)
Lemma mapM_getitem_raises (tour : list Z) :
  (exists i, i ∈ tour /\ getitem points i = Raise IndexError) ->
  mapM (getitem points) tour = Raise IndexError.
Proof.
  induction tour as [|j tour IH]; intros (i & Hi & Hbad).
  - by apply elem_of_nil in Hi.
  - cbn. destruct (getitem points j) as [pj|e] eqn:Hj.
    + cbn. apply elem_of_cons in Hi as [->|Hi]; [congruence|].
      rewrite IH; [done|by exists i].
    + cbn. by rewrite (getitem_raises _ _ _ Hj).
Qed.

Lemma column0_Ok tour pts :
  mapM (getitem points) tour = Ok pts -> column0 points tour = Ok (fst <$> pts).
Proof.
  unfold column0. revert pts. induction tour as [|i tour IH]; intros pts; cbn.
  - by intros [= <-].
  - intros (p & Hp & H)%bind_Ok_inv. apply bind_Ok_inv in H as (k & Hk & [= <-]).
    rewrite Hp. cbn. by rewrite (IH _ Hk).
Qed.

Lemma column1_Ok tour pts :
  mapM (getitem points) tour = Ok pts -> column1 points tour = Ok (snd <$> pts).
Proof.
  unfold column1. revert pts. induction tour as [|i tour IH]; intros pts; cbn.
  - by intros [= <-].
  - intros (p & Hp & H)%bind_Ok_inv. apply bind_Ok_inv in H as (k & Hk & [= <-]).
    rewrite Hp. cbn. by rewrite (IH _ Hk).
Qed.

Lemma column0_Raise tour e :
  mapM (getitem points) tour = Raise e -> column0 points tour = Raise e.
Proof.
  unfold column0. induction tour as [|i tour IH]; cbn; [discriminate|].
  destruct (getitem points i) as [p|e']; cbn; [|by intros [= ->]].
  destruct (mapM (getitem points) tour) as [k|e'']; cbn; [discriminate|].
  intros [= ->]. by rewrite IH.
Qed.

(** Closing a resolved tour: the first index resolves to the first point. *)
Lemma closed_tour_Ok i0 rest pts :
  mapM (getitem points) (i0 :: rest) = Ok pts ->
  mapM (getitem points) ((i0 :: rest) ++ [i0]) = Ok (closed_path pts).
Proof.
  intros H. pose proof H as H'. cbn in H'.
  apply bind_Ok_inv in H' as (p0 & Hp0 & H').
  apply bind_Ok_inv in H' as (k & Hk & [= <-]).
  unfold closed_path. apply mapM_app_Ok; [done|].
  cbn. by rewrite Hp0.
Qed.

End Comprehensions.

(** ** The closures *)

Lemma key_frames_mult_pos history : 1 <= key_frames_mult history.
Proof. unfold key_frames_mult. lia. Qed.

Lemma actual_frame_nonneg history frame : 0 <= frame -> 0 <= frame * key_frames_mult history.
Proof. pose proof (key_frames_mult_pos history). nia. Qed.

Lemma handles_ok_inv h fig :
  handles_ok h fig ->
  (line h <> temp_line h /\ line h <> temp_points h /\
   line h <> cost_line h /\ line h <> cost_points h /\
   temp_line h <> temp_points h /\ temp_line h <> cost_line h /\
   temp_line h <> cost_points h /\ temp_points h <> cost_line h /\
   temp_points h <> cost_points h /\ cost_line h <> cost_points h) /\
  (line h < length (lines fig) /\ temp_line h < length (lines fig) /\
   temp_points h < length (lines fig) /\ cost_line h < length (lines fig) /\
   cost_points h < length (lines fig))%nat.
Proof.
  intros [Hnd Hall].
  repeat (apply NoDup_cons in Hnd as [? Hnd]).
  repeat (apply Forall_cons in Hall as [? Hall]).
  split; [set_solver|done].
Qed.

Lemma handles_ok_grow h fig fig' :
  (length (lines fig) <= length (lines fig'))%nat -> handles_ok h fig -> handles_ok h fig'.
Proof.
  intros Hle [Hnd Hall]. split; [done|].
  eapply Forall_impl; [exact Hall|]. cbn. lia.
Qed.

Lemma setup_handles_ok : handles_ok (snd setup) (fst setup).
Proof.
  split; cbn.
  - by apply (bool_decide_unpack _).
  - repeat (apply Forall_cons; split; [lia|]). apply Forall_nil_2.
Qed.

Section UpdateFacts.

Variable history : list (list Z).
Variable points : list (float * float).
Variable temp_history weight_history : option (list float).
Variable h : Handles.

Implicit Types (fig : Figure) (frame a : Z).

(** *** The tour block *)

Lemma update_path_past_end a fig :
  len history <= a -> update_path history points h a fig = Ok fig.
Proof.
  intros Ha. unfold update_path. by destruct (Z.ltb_spec a (len history)); [lia|].
Qed.

Lemma update_path_in_range a tour pts fig :
  0 <= a ->
  history !! Z.to_nat a = Some tour ->
  tour <> [] ->
  mapM (getitem points) tour = Ok pts ->
  update_path history points h a fig =
    Ok (set_data (line h) (xs_of (closed_path pts)) (ys_of (closed_path pts)) fig).
Proof.
  intros Ha Htour Hne Hpts.
  apply lookup_lt_Some in Htour as Hlt.
  unfold update_path.
  destruct (Z.ltb_spec a (len history)); [|unfold len in *; lia].
  rewrite (getitem_in_range _ _ _ Ha Htour). cbn [mbind res_bind].
  destruct tour as [|i0 rest]; [done|].
  rewrite (getitem_in_range (i0 :: rest) 0 i0) by done. cbn [mbind res_bind].
  apply closed_tour_Ok in Hpts.
  by rewrite (column0_Ok _ _ _ Hpts), (column1_Ok _ _ _ Hpts).
Qed.

(** The tour block touches one stored object and no axes. *)
Lemma update_path_effect a fig fig' :
  update_path history points h a fig = Ok fig' ->
  (forall b, ax b fig' = ax b fig) /\
  length (lines fig') = length (lines fig) /\
  (forall id, id <> line h -> lines fig' !! id = lines fig !! id).
Proof.
  unfold update_path. destruct (a <? len history).
  - intros (tour & _ & H)%bind_Ok_inv.
    apply bind_Ok_inv in H as (first & _ & H).
    apply bind_Ok_inv in H as (x & _ & H).
    apply bind_Ok_inv in H as (y & _ & [= <-]).
    split; [intros b; apply ax_set_data|].
    split; [apply length_set_data|].
    intros id Hid. by apply lookup_set_data_other.
  - by intros [= <-].
Qed.

(** *** The whole of [update] *)

Lemma update_inv frame fig fig' :
  update history points temp_history weight_history h frame fig = Ok fig' ->
  exists fig1 fig2,
    update_path history points h (frame * key_frames_mult history) fig = Ok fig1 /\
    update_panel h temperature_panel temp_history (frame * key_frames_mult history) fig1 = Ok fig2 /\
    update_panel h cost_panel weight_history (frame * key_frames_mult history) fig2 = Ok fig'.
Proof.
  unfold update.
  intros (fig1 & H1 & H)%bind_Ok_inv.
  apply bind_Ok_inv in H as (fig2 & H2 & H3).
  by exists fig1, fig2.
Qed.

(** On the frames the driver enumerates (none is negative) and with finite
    panel limits, [update] succeeds when its tour block does. *)
Lemma update_after_path frame fig fig1 :
  0 <= frame ->
  update_path history points h (frame * key_frames_mult history) fig = Ok fig1 ->
  panel_limits_finite temperature_panel temp_history = true ->
  panel_limits_finite cost_panel weight_history = true ->
  exists fig', update history points temp_history weight_history h frame fig = Ok fig'.
Proof.
  intros Hf%(actual_frame_nonneg history) H1 Hft Hfw.
  destruct (update_panel_total h temperature_panel temp_history _ fig1 Hf Hft) as [fig2 H2].
  destruct (update_panel_total h cost_panel weight_history _ fig2 Hf Hfw) as [fig3 H3].
  exists fig3. unfold update. rewrite H1. cbn [mbind res_bind]. by rewrite H2.
Qed.

(** Where an exception of [update] comes from: the tour block, or
    [set_ylim] in a trace block that is not skipped and whose limits are not
    finite. *)
Lemma update_raises frame fig e :
  0 <= frame ->
  update history points temp_history weight_history h frame fig = Raise e ->
  update_path history points h (frame * key_frames_mult history) fig = Raise e \/
  (e = ValueError /\
   ((~ panel_skipped temp_history (frame * key_frames_mult history) /\
     panel_limits_finite temperature_panel temp_history = false) \/
    (~ panel_skipped weight_history (frame * key_frames_mult history) /\
     panel_limits_finite cost_panel weight_history = false))).
Proof.
  intros Hf%(actual_frame_nonneg history) Hu. unfold update in Hu.
  destruct (update_path history points h (frame * key_frames_mult history) fig)
    as [fig1|e1] eqn:H1; cbn [mbind res_bind] in Hu; [|left; congruence].
  right.
  destruct (update_panel h temperature_panel temp_history _ fig1) as [fig2|e2] eqn:H2;
    cbn [mbind res_bind] in Hu.
  - destruct (update_panel_raises _ _ _ _ _ _ Hf Hu) as (-> & Hns & Hfin).
    split; [done|]. by right.
  - injection Hu as <-.
    destruct (update_panel_raises _ _ _ _ _ _ Hf H2) as (-> & Hns & Hfin).
    split; [done|]. by left.
Qed.

Lemma update_store_grows frame fig fig' :
  0 <= frame ->
  update history points temp_history weight_history h frame fig = Ok fig' ->
  (length (lines fig) <= length (lines fig'))%nat.
Proof.
  intros Hf%(actual_frame_nonneg history) (fig1 & fig2 & H1 & H2 & H3)%update_inv.
  apply update_path_effect in H1 as (_ & Hl1 & _).
  apply update_panel_store in H2 as [Hl2 _]; [|done].
  apply update_panel_store in H3 as [Hl3 _]; [|done].
  lia.
Qed.

(** The two panel blocks leave the tour's line object and the tour's axes
    as the tour block left them. *)
Lemma update_tour_panel frame fig fig1 fig' :
  0 <= frame ->
  handles_ok h fig ->
  update_path history points h (frame * key_frames_mult history) fig = Ok fig1 ->
  update history points temp_history weight_history h frame fig = Ok fig' ->
  lines fig' !! line h = lines fig1 !! line h /\ ax1 fig' = ax1 fig.
Proof.
  intros Hf%(actual_frame_nonneg history) Hok H1 (g1 & fig2 & H1' & H2 & H3)%update_inv.
  rewrite H1 in H1'. injection H1' as <-.
  apply handles_ok_inv in Hok as [Hne Hlt].
  apply update_path_effect in H1 as (Hax1 & Hl1 & _).
  apply update_panel_store in H2 as H2s; [|done]. destruct H2s as [Hl2 Hs2].
  apply update_panel_store in H3 as H3s; [|done]. destruct H3s as [Hl3 Hs3].
  apply update_panel_axes in H2 as [Ho2 _]; [|done].
  apply update_panel_axes in H3 as [Ho3 _]; [|done].
  split.
  - destruct Hne as (? & ? & ? & ? & _). destruct Hlt as (? & _).
    rewrite Hs3, Hs2 by (cbn; first [lia|done]). done.
  - specialize (Ho3 Ax1). specialize (Ho2 Ax1). specialize (Hax1 Ax1).
    cbn in *. rewrite Ho3, Ho2 by done. done.
Qed.

(** On an enumerated frame whose index falls inside the history, an
    [update] that returns has drawn a well-formed tour as a closed path. *)
Lemma update_shows_tour frame fig fig' tour pts :
  0 <= frame ->
  handles_ok h fig ->
  history !! Z.to_nat (frame * key_frames_mult history) = Some tour ->
  tour <> [] ->
  mapM (getitem points) tour = Ok pts ->
  update history points temp_history weight_history h frame fig = Ok fig' ->
  exists old,
    lines fig !! line h = Some old /\
    lines fig' !! line h =
      Some (mkLine (xs_of (closed_path pts)) (ys_of (closed_path pts)) (fmt old)).
Proof.
  intros Hf Hok Htour Hne Hpts Hu.
  pose proof (actual_frame_nonneg history frame Hf) as Ha.
  pose proof (update_path_in_range _ tour pts fig Ha Htour Hne Hpts) as Hpath.
  destruct (handles_ok_inv _ _ Hok) as [_ [Hlt _]].
  apply lookup_lt_is_Some in Hlt as [old Hold].
  exists old. split; [done|].
  destruct (update_tour_panel _ _ _ _ Hf Hok Hpath Hu) as [-> _].
  by apply lookup_set_data_same.
Qed.

(** With finite panel limits as well, nothing is raised. *)
Lemma update_draws_tour frame fig tour pts :
  0 <= frame ->
  handles_ok h fig ->
  history !! Z.to_nat (frame * key_frames_mult history) = Some tour ->
  tour <> [] ->
  mapM (getitem points) tour = Ok pts ->
  panel_limits_finite temperature_panel temp_history = true ->
  panel_limits_finite cost_panel weight_history = true ->
  exists fig' old,
    update history points temp_history weight_history h frame fig = Ok fig' /\
    lines fig !! line h = Some old /\
    lines fig' !! line h =
      Some (mkLine (xs_of (closed_path pts)) (ys_of (closed_path pts)) (fmt old)).
Proof.
  intros Hf Hok Htour Hne Hpts Hft Hfw.
  pose proof (actual_frame_nonneg history frame Hf) as Ha.
  pose proof (update_path_in_range _ tour pts fig Ha Htour Hne Hpts) as Hpath.
  destruct (update_after_path _ _ _ Hf Hpath Hft Hfw) as [fig' Hu].
  destruct (update_shows_tour _ _ _ _ _ Hf Hok Htour Hne Hpts Hu) as (old & Hold & Hline).
  by exists fig', old.
Qed.

End UpdateFacts.

(** ** The frame range and the animation loop *)

Lemma frames_Ok history :
  frames history =
    Ok ((fun k => k * key_frames_mult history) <$>
          seqZ 0 (range_len 0 (len history) (key_frames_mult history))).
Proof.
  unfold frames, range. pose proof (key_frames_mult_pos history).
  destruct (Z.eqb_spec (key_frames_mult history) 0); [lia|].
  do 2 f_equal.
Qed.

Lemma range_len_from_zero n s :
  0 <= n -> 1 <= s -> range_len 0 n s = (n + s - 1) / s.
Proof.
  intros Hn Hs. unfold range_len.
  destruct (Z.ltb_spec 0 s); [|lia].
  destruct (Z.ltb_spec 0 n).
  - replace (n + s - 1) with (n - 0 - 1 + 1 * s) by lia.
    rewrite Z.div_add by lia. lia.
  - replace n with 0 by lia. rewrite Z.div_small; lia.
Qed.

(** Every enumerated frame is a non-negative multiple of the stride below
    [len(history)]. *)
Lemma frames_elem history fs f :
  frames history = Ok fs -> f ∈ fs ->
  0 <= f < len history /\ exists k, 0 <= k /\ f = k * key_frames_mult history.
Proof.
  rewrite frames_Ok. intros [= <-] (k & -> & Hk)%list_elem_of_fmap.
  apply elem_of_seqZ in Hk.
  pose proof (key_frames_mult_pos history) as Hs.
  pose proof (@len_nonneg _ history) as Hn.
  rewrite range_len_from_zero in Hk by done.
  split; [|exists k; lia].
  split; [nia|].
  assert (k <= (len history + key_frames_mult history - 1) / key_frames_mult history - 1) as Hk' by lia.
  assert (key_frames_mult history * ((len history + key_frames_mult history - 1) / key_frames_mult history)
          <= len history + key_frames_mult history - 1) by (apply Z.mul_div_le; lia).
  nia.
Qed.

Lemma frames_nonneg history fs :
  frames history = Ok fs -> Forall (fun f => 0 <= f) fs.
Proof.
  intros Hfs. apply Forall_forall. intros f Hf.
  by destruct (frames_elem _ _ _ Hfs Hf) as [[? _] _].
Qed.

Section PlayFacts.

Variable history : list (list Z).
Variable points : list (float * float).
Variable temp_history weight_history : option (list float).
Variable h : Handles.

(** A property that [init] establishes and [update] keeps holds of every
    figure the loop draws. *)
Lemma play_invariant (P : Figure -> Prop) fs fig0 :
  Forall (fun f => 0 <= f) fs ->
  P fig0 ->
  (forall f fig fig', 0 <= f -> P fig ->
      update history points temp_history weight_history h f fig = Ok fig' -> P fig') ->
  forall f fig,
    (f, fig) ∈ fst (play history points temp_history weight_history h fs fig0) -> P fig.
Proof.
  intros Hfs H0 Hstep. revert fig0 H0.
  induction Hfs as [|f0 fs Hf0 Hfs IH]; intros fig0 H0 f fig; cbn.
  - by intros ?%elem_of_nil.
  - destruct (update _ _ _ _ _ f0 fig0) as [fig1|e] eqn:Hu; cbn.
    + intros [[= -> ->]|Hin]%elem_of_cons; [by eapply Hstep|].
      eapply IH; [|done]. by eapply Hstep.
    + by intros ?%elem_of_nil.
Qed.

End PlayFacts.

(** ** [init] *)

Section InitFacts.

Variable history : list (list Z).
Variable points : list (float * float).
Variable temp_history weight_history : option (list float).
Variable h : Handles.

Implicit Types (fig : Figure) (p : Panel) (series : option (list float)).

(** A panel block of [init] raises [ValueError] on a non-finite limit and
    nothing otherwise. *)
Lemma init_panel_result p series fig :
  if panel_limits_finite p series
  then exists fig', init_panel h p series fig = Ok fig'
  else init_panel h p series fig = Raise ValueError.
Proof.
  unfold init_panel, panel_limits_finite.
  destruct series as [[|x xs]|];
    cbn [truthy default from_option id mbind res_bind mret res_ret Py.min Py.max];
    [by eexists| |by eexists].
  rewrite set_xlim_int. cbn [mbind res_bind].
  destruct (finite_limits (panel_ylim p _ _)) eqn:Hfin.
  - rewrite (set_ylim_finite _ _ _ _ Hfin). by eexists.
  - by rewrite (set_ylim_not_finite _ _ _ _ Hfin).
Qed.

(** A panel block of [init] that returned has given its axes the limits of
    the whole history when there is one, and left them alone otherwise. *)
Lemma init_panel_effect p series fig fig' :
  init_panel h p series fig = Ok fig' ->
    (forall b, b <> panel_axis p -> ax b fig' = ax b fig) /\
    length (lines fig') = length (lines fig) /\
    (forall id, id <> panel_line p h -> id <> panel_points p h ->
       lines fig' !! id = lines fig !! id) /\
    match series with
    | Some (x :: xs) =>
        exists lo hi,
          Py.min (x :: xs) = Ok lo /\ Py.max (x :: xs) = Ok hi /\
          xlim (ax (panel_axis p) fig') = Some (panel_xlim (x :: xs)) /\
          ylim (ax (panel_axis p) fig') = Some (panel_ylim p lo hi)
    | _ => ax (panel_axis p) fig' = ax (panel_axis p) fig
    end.
Proof.
  unfold init_panel.
  destruct series as [[|x xs]|]; cbn [truthy default from_option id mbind res_bind mret res_ret Py.min Py.max].
  2: {
    rewrite set_xlim_int. cbn [mbind res_bind].
    destruct (finite_limits (panel_ylim p
                (fold_left (fun cur item => if PrimFloat.ltb item cur then item else cur) xs x)
                (fold_left (fun cur item => if PrimFloat.ltb cur item then item else cur) xs x)))
      eqn:Hfin;
      [rewrite (set_ylim_finite _ _ _ _ Hfin)
      |rewrite (set_ylim_not_finite _ _ _ _ Hfin); discriminate].
    cbn [mbind res_bind]. intros [= <-].
    split; [intros b Hb; destruct (panel_axis p), b; done|].
    split; [cbn; by rewrite !length_alter; destruct (panel_axis p)|].
    split.
    - intros i H1 H2. destruct (panel_axis p); cbn; by rewrite !list_lookup_alter_ne.
    - eexists _, _. split; [reflexivity|]. split; [reflexivity|].
      by destruct (panel_axis p).
  }
  all: intros [= <-].
  all: split; [intros b Hb; by rewrite !ax_set_data|].
  all: split; [cbn; by rewrite !length_alter|].
  all: split; [intros i H1 H2; cbn; by rewrite !list_lookup_alter_ne|].
  all: by rewrite !ax_set_data.
Qed.

(** The figure a panel block of [init] leaves, up to the limits it has set. *)
Lemma init_panel_Ok_inv p series fig fig' :
  init_panel h p series fig = Ok fig' ->
  exists l,
    fig' =
      set_data (panel_points p h) [] []
        (set_data (panel_line p h) [] []
           (with_ax (panel_axis p)
              (fun x => mkAxes (title x) (xlabel x) (ylabel x)
                          (if truthy series then fst l else xlim x)
                          (if truthy series then snd l else ylim x)
                          (if truthy series then true else grid x)
                          (legend x) (children x)) fig)).
Proof.
  unfold init_panel.
  destruct series as [[|x xs]|]; cbn [truthy default from_option id mbind res_bind mret res_ret Py.min Py.max].
  2: {
    rewrite set_xlim_int. cbn [mbind res_bind].
    destruct (finite_limits (panel_ylim p
                (fold_left (fun cur item => if PrimFloat.ltb item cur then item else cur) xs x)
                (fold_left (fun cur item => if PrimFloat.ltb cur item then item else cur) xs x)))
      eqn:Hfin;
      [rewrite (set_ylim_finite _ _ _ _ Hfin)
      |rewrite (set_ylim_not_finite _ _ _ _ Hfin); discriminate].
    cbn [mbind res_bind]. intros [= <-].
    exists (Some (panel_xlim (x :: xs)),
            Some (panel_ylim p
                    (fold_left (fun cur item => if PrimFloat.ltb item cur then item else cur) xs x)
                    (fold_left (fun cur item => if PrimFloat.ltb cur item then item else cur) xs x))).
    by destruct (panel_axis p).
  }
  all: intros [= <-]; exists (None, None).
  all: by destruct (panel_axis p), fig as [? ? [] [] []].
Qed.

(** What a successful [init] has done to the three axes. *)
Lemma init_Ok_inv fig fig0 :
  init history points temp_history weight_history h fig = Ok fig0 ->
  exists tour x y lo_x hi_x lo_y hi_y,
    history !! 0%nat = Some tour /\
    column0 points tour = Ok x /\ column1 points tour = Ok y /\
    Py.min x = Ok lo_x /\ Py.max x = Ok hi_x /\
    Py.min y = Ok lo_y /\ Py.max y = Ok hi_y /\
    xlim (ax1 fig0) =
      Some (PyFloat (lo_x - (hi_x - lo_x) * 0.05)%float,
            PyFloat (hi_x + (hi_x - lo_x) * 0.05)%float) /\
    ylim (ax1 fig0) =
      Some (PyFloat (lo_y - (hi_y - lo_y) * 0.05)%float,
            PyFloat (hi_y + (hi_y - lo_y) * 0.05)%float) /\
    (length (lines fig) <= length (lines fig0))%nat /\
    match temp_history with
    | Some (t :: ts) =>
        exists lo hi,
          Py.min (t :: ts) = Ok lo /\ Py.max (t :: ts) = Ok hi /\
          xlim (ax2 fig0) = Some (panel_xlim (t :: ts)) /\
          ylim (ax2 fig0) = Some (panel_ylim temperature_panel lo hi)
    | _ => ax2 fig0 = ax2 fig
    end /\
    match weight_history with
    | Some (w :: ws) =>
        exists lo hi,
          Py.min (w :: ws) = Ok lo /\ Py.max (w :: ws) = Ok hi /\
          xlim (ax3 fig0) = Some (panel_xlim (w :: ws)) /\
          ylim (ax3 fig0) = Some (panel_ylim cost_panel lo hi)
    | _ => ax3 fig0 = ax3 fig
    end.
Proof.
  unfold init.
  intros (tour & Htour & H)%bind_Ok_inv.
  apply bind_Ok_inv in H as (x & Hx & H).
  apply bind_Ok_inv in H as (y & Hy & H).
  apply bind_Ok_inv in H as (max_x & Hmax_x & H).
  apply bind_Ok_inv in H as (min_x & Hmin_x & H).
  apply bind_Ok_inv in H as (max_y & Hmax_y & H).
  apply bind_Ok_inv in H as (min_y & Hmin_y & H).
  rewrite Hmin_x, Hmax_x in H. cbn [mbind res_bind] in H.
  apply bind_Ok_inv in H as (figX & HX & H).
  rewrite Hmin_y, Hmax_y in H. cbn [mbind res_bind] in H.
  apply bind_Ok_inv in H as (figY & HY & H).
  apply bind_Ok_inv in H as (figT & HT & HC).
  apply set_xlim_Ok_inv in HX as [_ ->]. apply set_ylim_Ok_inv in HY as [_ ->].
  apply getitem_Ok_nonneg in Htour as [Htour _]; [|done].
  exists tour, x, y, min_x, max_x, min_y, max_y.
  do 7 (split; [done|]).
  match type of HT with init_panel _ _ _ ?f = _ => set (figA := f) in * end.
  destruct (init_panel_effect temperature_panel temp_history figA figT HT)
    as (HTo & HTl & _ & HTp).
  destruct (init_panel_effect cost_panel weight_history figT fig0 HC)
    as (HCo & HCl & _ & HCp).
  pose proof (HCo Ax1 ltac:(done)) as HC1. pose proof (HTo Ax1 ltac:(done)) as HT1.
  pose proof (HCo Ax2 ltac:(done)) as HC2. pose proof (HTo Ax3 ltac:(done)) as HT3.
  cbn in HC1, HT1, HC2, HT3, HTp, HCp.
  split; [by rewrite HC1, HT1|]. split; [by rewrite HC1, HT1|].
  split; [rewrite HCl, HTl; subst figA; cbn; rewrite length_alter, length_app; lia|].
  split.
  - rewrite HC2. destruct temp_history as [[|t ts]|]; done.
  - destruct weight_history as [[|w ws]|]; [by rewrite HCp, HT3..|done|by rewrite HCp, HT3].
Qed.

(** [init] cannot get past an empty history ... *)
Lemma init_empty_history fig :
  history = [] ->
  init history points temp_history weight_history h fig = Raise IndexError.
Proof. by intros ->. Qed.

(** ... nor past a first tour with an index outside the point array ... *)
Lemma init_bad_first_tour tour rest i fig :
  history = tour :: rest ->
  i ∈ tour -> getitem points i = Raise IndexError ->
  init history points temp_history weight_history h fig = Raise IndexError.
Proof.
  intros -> Hi Hbad. unfold init.
  change (getitem (tour :: rest) 0) with (Ok tour). cbn [mbind res_bind].
  erewrite column0_Raise; [done|].
  apply mapM_getitem_raises. by exists i.
Qed.

(** ... and, once the first tour resolves, succeeds exactly when every limit
    it hands to the backend is finite; otherwise it raises [ValueError]. *)
Lemma init_first_tour_result tour rest pts fig :
  history = tour :: rest ->
  tour <> [] ->
  mapM (getitem points) tour = Ok pts ->
  if box_finite points tour &&
     panel_limits_finite temperature_panel temp_history &&
     panel_limits_finite cost_panel weight_history
  then exists fig0, init history points temp_history weight_history h fig = Ok fig0
  else init history points temp_history weight_history h fig = Raise ValueError.
Proof.
  intros -> Hne Hpts. unfold init, box_finite.
  change (getitem (tour :: rest) 0) with (Ok tour). cbn [mbind res_bind].
  rewrite (column0_Ok _ _ _ Hpts), (column1_Ok _ _ _ Hpts). cbn [mbind res_bind].
  apply mapM_length in Hpts as Hlen.
  destruct pts as [|p0 ps]; [by destruct tour|].
  cbn [fmap list_fmap Py.max Py.min mbind res_bind].
  set (lo_x := fold_left (fun cur item => if PrimFloat.ltb item cur then item else cur)
                 (fst <$> ps) (fst p0)).
  set (hi_x := fold_left (fun cur item => if PrimFloat.ltb cur item then item else cur)
                 (fst <$> ps) (fst p0)).
  set (lo_y := fold_left (fun cur item => if PrimFloat.ltb item cur then item else cur)
                 (snd <$> ps) (snd p0)).
  set (hi_y := fold_left (fun cur item => if PrimFloat.ltb cur item then item else cur)
                 (snd <$> ps) (snd p0)).
  destruct (finite_limits (padded lo_x hi_x)) eqn:Hx; cbn [andb];
    [rewrite (set_xlim_finite _ _ _ _ Hx)|by rewrite (set_xlim_not_finite _ _ _ _ Hx)].
  cbn [mbind res_bind].
  destruct (finite_limits (padded lo_y hi_y)) eqn:Hy; cbn [andb];
    [rewrite (set_ylim_finite _ _ _ _ Hy)|by rewrite (set_ylim_not_finite _ _ _ _ Hy)].
  cbn [mbind res_bind].
  match goal with |- context [init_panel _ temperature_panel _ ?f] => set (figA := f) end.
  pose proof (init_panel_result temperature_panel temp_history figA) as HT.
  destruct (panel_limits_finite temperature_panel temp_history); cbn [andb];
    [destruct HT as [figT ->]|by rewrite HT].
  cbn [mbind res_bind].
  pose proof (init_panel_result cost_panel weight_history figT) as HC.
  destruct (panel_limits_finite cost_panel weight_history); [|done].
  destruct HC as [figC ->]. by exists figC.
Qed.

Lemma init_good_first_tour tour rest pts fig :
  history = tour :: rest ->
  tour <> [] ->
  mapM (getitem points) tour = Ok pts ->
  box_finite points tour = true ->
  panel_limits_finite temperature_panel temp_history = true ->
  panel_limits_finite cost_panel weight_history = true ->
  exists fig0, init history points temp_history weight_history h fig = Ok fig0.
Proof.
  intros Hh Hne Hpts Hb Ht Hw.
  pose proof (init_first_tour_result tour rest pts fig Hh Hne Hpts) as H.
  by rewrite Hb, Ht, Hw in H.
Qed.

(** A successful [init] had finite limits everywhere. *)
Lemma init_Ok_finite tour rest fig fig0 :
  history = tour :: rest ->
  init history points temp_history weight_history h fig = Ok fig0 ->
  box_finite points tour = true /\
  panel_limits_finite temperature_panel temp_history = true /\
  panel_limits_finite cost_panel weight_history = true.
Proof.
  intros Hh Hinit.
  destruct tour as [|i0 tour'] eqn:Ht; [by subst history|]. rewrite <- Ht in *.
  destruct (mapM (getitem points) tour) as [pts|e] eqn:Hpts.
  - pose proof (init_first_tour_result tour rest pts fig Hh ltac:(by subst tour) Hpts) as H.
    destruct (box_finite points tour); [|congruence].
    destruct (panel_limits_finite temperature_panel temp_history); [|congruence].
    destruct (panel_limits_finite cost_panel weight_history); [done|congruence].
  - revert Hinit. rewrite Hh. unfold init.
    change (getitem (tour :: rest) 0) with (Ok tour). cbn [mbind res_bind].
    by rewrite (column0_Raise _ _ _ Hpts).
Qed.

End InitFacts.

(** ** The sampling stride and the tour panel *)

(** C2: for a Tour History of any length L the stride is
    [max(1, floor(L / 9000))], hence at least 1; for the empty history the
    stride is 1 (nothing is divided by zero) and the driver enumerates no
    frame. *)
Theorem stride_at_least_one :
  (forall history : list (list Z),
      key_frames_mult history = Z.max 1 (len history / 9000) /\
      1 <= key_frames_mult history) /\
  key_frames_mult [] = 1 /\
  frames [] = Ok [].
Proof.
  split; [|done].
  intros history. split; [done|apply key_frames_mult_pos].
Qed.

(** C10: when the index [update] computes is at or past the end of the Tour
    History, the tour block is skipped: it raises nothing and changes
    nothing, [update] as a whole cannot raise [IndexError], an [update] that
    returns has left the tour's line object and the tour panel as they were,
    and [update] does return when the limits of the trace panels are finite. *)
Theorem tour_lookup_guarded history points temp_history weight_history h frame fig :
  handles_ok h fig ->
  len history <= frame * key_frames_mult history ->
  update_path history points h (frame * key_frames_mult history) fig = Ok fig /\
  update history points temp_history weight_history h frame fig <> Raise IndexError /\
  (forall fig',
      update history points temp_history weight_history h frame fig = Ok fig' ->
      lines fig' !! line h = lines fig !! line h /\ ax1 fig' = ax1 fig) /\
  (panel_limits_finite temperature_panel temp_history = true ->
   panel_limits_finite cost_panel weight_history = true ->
   exists fig', update history points temp_history weight_history h frame fig = Ok fig').
Proof.
  intros Hok Hpast.
  assert (0 <= frame) as Hf.
  { pose proof (key_frames_mult_pos history). pose proof (@len_nonneg _ history). nia. }
  pose proof (update_path_past_end history points h _ fig Hpast) as Hpath.
  split; [done|]. split; [|split].
  - intros [Hr|[[=] _]]%update_raises; [|done]. congruence.
  - intros fig' Hu. by eapply update_tour_panel.
  - intros Hft Hfw. by eapply update_after_path.
Qed.

Lemma tour_lookup_guarded_witness :
  update_path two_tours triangle (snd setup) (2 * key_frames_mult two_tours) (fst setup) =
    Ok (fst setup) /\
  update two_tours triangle (Some cooling) None (snd setup) 2 (fst setup) <> Raise IndexError /\
  (forall fig',
      update two_tours triangle (Some cooling) None (snd setup) 2 (fst setup) = Ok fig' ->
      lines fig' !! line (snd setup) = lines (fst setup) !! line (snd setup) /\
      ax1 fig' = ax1 (fst setup)) /\
  exists fig', update two_tours triangle (Some cooling) None (snd setup) 2 (fst setup) = Ok fig'.
Proof.
  destruct (tour_lookup_guarded two_tours triangle (Some cooling) None (snd setup) 2 (fst setup))
    as (Hpath & Hne & Hkeep & Hret).
  - apply setup_handles_ok.
  - vm_compute. discriminate.
  - split; [exact Hpath|]. split; [exact Hne|]. split; [exact Hkeep|].
    apply Hret; vm_compute; reflexivity.
Defined.

(** C7: on a frame whose index falls inside the Tour History, an [update]
    that returns has given the tour's line object the points of that tour,
    in tour order, followed by the tour's first point again; and [update]
    does return when the limits of the trace panels are finite.  For the
    history [[0,1,2],[1,2,0]] over the triangle, two frames are drawn and
    the first shows (0,0), (1,0), (1,1), (0,0). *)
Theorem tour_path_closed_cycle :
  (forall history points temp_history weight_history h frame fig tour pts,
      0 <= frame ->
      handles_ok h fig ->
      history !! Z.to_nat (frame * key_frames_mult history) = Some tour ->
      tour <> [] ->
      mapM (getitem points) tour = Ok pts ->
      (forall fig',
          update history points temp_history weight_history h frame fig = Ok fig' ->
          exists old,
            lines fig !! line h = Some old /\
            lines fig' !! line h =
              Some (mkLine (xs_of (closed_path pts)) (ys_of (closed_path pts)) (fmt old))) /\
      (panel_limits_finite temperature_panel temp_history = true ->
       panel_limits_finite cost_panel weight_history = true ->
       exists fig', update history points temp_history weight_history h frame fig = Ok fig')) /\
  (exists fig0 fig1 fig2,
      animateTSP two_tours triangle None None = Played fig0 [(0, fig1); (1, fig2)] None /\
      head (drawn Ax1 fig1) =
        Some (mkLine [PyFloat 0; PyFloat 1; PyFloat 1; PyFloat 0]
                     [PyFloat 0; PyFloat 0; PyFloat 1; PyFloat 0] "b-")).
Proof.
  split.
  - intros history points temp_history weight_history h frame fig tour pts
      Hf Hok Htour Hne Hpts.
    split.
    + intros fig' Hu. by eapply update_shows_tour.
    + intros Hft Hfw.
      destruct (update_draws_tour _ _ _ _ _ _ _ _ _ Hf Hok Htour Hne Hpts Hft Hfw)
        as (fig' & _ & Hu & _).
      by exists fig'.
  - eexists _, _, _. split; vm_compute; reflexivity.
Qed.

Lemma tour_path_closed_cycle_witness :
  exists fig' old,
    update three_tours triangle (Some cooling) None (snd setup) 1 (fst setup) = Ok fig' /\
    lines (fst setup) !! line (snd setup) = Some old /\
    lines fig' !! line (snd setup) =
      Some (mkLine [PyFloat 1; PyFloat 1; PyFloat 0; PyFloat 1]
                   [PyFloat 0; PyFloat 1; PyFloat 0; PyFloat 0] (fmt old)).
Proof.
  destruct (proj1 tour_path_closed_cycle three_tours triangle (Some cooling) None
              (snd setup) 1 (fst setup) [1; 2; 0] [(1, 0); (1, 1); (0, 0)]%float)
    as [Hshown Hret].
  - lia.
  - apply setup_handles_ok.
  - reflexivity.
  - discriminate.
  - reflexivity.
  - destruct Hret as [fig' Hu]; [vm_compute; reflexivity..|].
    destruct (Hshown fig' Hu) as (old & Hold & Hline).
    exists fig', old. split; [exact Hu|]. split; [exact Hold|exact Hline].
Defined.

(** ** The temperature and the cost panel *)

(** C3: on a frame whose index [a] falls inside a Temperature History, the
    temperature panel shows exactly two artists after [update]: the trace of
    [temp_history[0..a]] against [0..a], and a single marker at
    [(a, temp_history[a])]; the prefix has [a + 1] values and ends with
    [temp_history[a]]; the title is that value printed with six decimals,
    after the text "Temperature: ". *)
Theorem temperature_prefix_drawn history points temps weight_history h frame fig fig' cur :
  let a := frame * key_frames_mult history in
  let prefix := take (Z.to_nat (a + 1)) temps in
  0 <= frame ->
  handles_ok h fig ->
  temps !! Z.to_nat a = Some cur ->
  update history points (Some temps) weight_history h frame fig = Ok fig' ->
  drawn Ax2 fig' =
    [mkLine (PyInt <$> seqZ 0 (a + 1)) (PyFloat <$> prefix) "r-";
     mkLine [PyInt a] [PyFloat cur] "ro"] /\
  length prefix = Z.to_nat (a + 1) /\
  last prefix = Some cur /\
  title (ax2 fig') = String.append "Temperature: " (format_fixed 6 cur).
Proof.
  intros a prefix Hf Hok Hcur (fig1 & fig2 & H1 & H2 & H3)%update_inv.
  pose proof (actual_frame_nonneg history frame Hf) as Ha. fold a in Ha, H1, H2, H3.
  apply lookup_lt_Some in Hcur as Hlt.
  destruct (update_panel_repaint h temperature_panel temps a cur fig1 Ha Hcur
              (update_panel_Ok_finite _ _ _ _ _ _ _ Ha Hcur H2))
    as (fig2' & lo & hi & H2' & _ & _ & Hax & _ & Hlines).
  rewrite H2 in H2'. injection H2' as <-.
  apply update_path_effect in H1 as (_ & Hl1 & _).
  apply handles_ok_inv in Hok as [_ (_ & _ & _ & Hcl & Hcp)].
  apply update_panel_store in H3 as H3s; [|done]. destruct H3s as [_ Hs3].
  apply update_panel_axes in H3 as [Ho3 _]; [|done].
  specialize (Ho3 Ax2 ltac:(done)). cbn in Ho3, Hax.
  assert (length (lines fig2) = S (S (length (lines fig1)))) as Hlen2.
  { rewrite Hlines, length_app, !length_alter. cbn. lia. }
  split; [|split; [|split]].
  - unfold drawn. cbn [ax]. rewrite Ho3, Hax. cbn [children omap list_omap].
    rewrite !Hs3 by (cbn; lia).
    rewrite Hlines.
    rewrite (lookup_app_r _ _ (length (lines fig1))) by (rewrite !length_alter; lia).
    rewrite (lookup_app_r _ _ (S (length (lines fig1)))) by (rewrite !length_alter; lia).
    rewrite !length_alter.
    replace (length (lines fig1) - length (lines fig1))%nat with 0%nat by lia.
    replace (S (length (lines fig1)) - length (lines fig1))%nat with 1%nat by lia.
    done.
  - subst prefix. rewrite length_take. lia.
  - subst prefix. rewrite last_lookup, length_take.
    rewrite lookup_take_lt by lia.
    replace (Init.Nat.pred (Z.to_nat (a + 1) `min` length temps)) with (Z.to_nat a) by lia.
    done.
  - by rewrite Ho3, Hax.
Qed.

Lemma temperature_prefix_drawn_witness :
  match update three_tours triangle (Some cooling) None (snd setup) 1 (fst setup) with
  | Ok fig' =>
      drawn Ax2 fig' =
        [mkLine [PyInt 0; PyInt 1] [PyFloat 100; PyFloat 50] "r-";
         mkLine [PyInt 1] [PyFloat 50] "ro"] /\
      title (ax2 fig') = "Temperature: 50.000000"%string
  | Raise _ => False
  end.
Proof.
  destruct (update three_tours triangle (Some cooling) None (snd setup) 1 (fst setup))
    as [fig'|e] eqn:Hu.
  - destruct (temperature_prefix_drawn three_tours triangle cooling None (snd setup) 1
                (fst setup) fig' 50%float ltac:(lia) setup_handles_ok eq_refl Hu)
      as (Hdrawn & _ & _ & Htitle).
    split; [exact Hdrawn|exact Htitle].
  - vm_compute in Hu. discriminate Hu.
Defined.

(** C8: when an optional history is absent, empty, or shorter than the
    frame's index, its block of [update] is skipped: [update] behaves exactly
    as it does without that history (so nothing is raised on its account and
    the other panels are updated as usual), and the panel's axes and its two
    line objects stay as they were.  An exception of [update] comes from the
    tour block or from a trace block that is not skipped, never from a
    skipped one.  With ten tours and five costs, frames 5 to 9 leave the cost
    panel as frame 4 left it while the tour path keeps following the tours. *)
Theorem optional_panel_skipped :
  (forall history points temp_history weight_history h frame fig,
      0 <= frame ->
      handles_ok h fig ->
      (panel_skipped temp_history (frame * key_frames_mult history) ->
         update history points temp_history weight_history h frame fig =
           update history points None weight_history h frame fig /\
         forall fig', update history points temp_history weight_history h frame fig = Ok fig' ->
           ax2 fig' = ax2 fig /\
           lines fig' !! temp_line h = lines fig !! temp_line h /\
           lines fig' !! temp_points h = lines fig !! temp_points h) /\
      (panel_skipped weight_history (frame * key_frames_mult history) ->
         update history points temp_history weight_history h frame fig =
           update history points temp_history None h frame fig /\
         forall fig', update history points temp_history weight_history h frame fig = Ok fig' ->
           ax3 fig' = ax3 fig /\
           lines fig' !! cost_line h = lines fig !! cost_line h /\
           lines fig' !! cost_points h = lines fig !! cost_points h) /\
      (forall e, update history points temp_history weight_history h frame fig = Raise e ->
         update_path history points h (frame * key_frames_mult history) fig = Raise e \/
         (e = ValueError /\
          ((~ panel_skipped temp_history (frame * key_frames_mult history) /\
            panel_limits_finite temperature_panel temp_history = false) \/
           (~ panel_skipped weight_history (frame * key_frames_mult history) /\
            panel_limits_finite cost_panel weight_history = false))))) /\
  (exists fig0 d0 d1 d2 d3 f4 f5 f6 f7 f8 f9,
      animateTSP ten_tours triangle None (Some five_costs) =
        Played fig0
          [(0, d0); (1, d1); (2, d2); (3, d3); (4, f4);
           (5, f5); (6, f6); (7, f7); (8, f8); (9, f9)] None /\
      Forall (fun fig => ax3 fig = ax3 f4 /\ drawn Ax3 fig = drawn Ax3 f4) [f5; f6; f7; f8; f9] /\
      Forall2 (fun fig tour =>
                 exists pts, mapM (getitem triangle) tour = Ok pts /\
                   head (drawn Ax1 fig) =
                     Some (mkLine (xs_of (closed_path pts)) (ys_of (closed_path pts)) "b-"))
        [f5; f6; f7; f8; f9] (drop 5 ten_tours)).
Proof.
  split.
  - intros history points temp_history weight_history h frame fig Hf Hok.
    pose proof (actual_frame_nonneg history frame Hf) as Ha.
    destruct (handles_ok_inv _ _ Hok) as [Hne Hlt].
    split; [|split].
    + intros Hskip. split.
      * unfold update.
        destruct (update_path history points h _ fig) as [fig1|e]; [|done].
        cbn [mbind res_bind].
        by rewrite (update_panel_skip h _ _ _ fig1 Hskip).
      * intros fig' (fig1 & fig2 & H1 & H2 & H3)%update_inv.
        rewrite (update_panel_skip h _ _ _ fig1 Hskip) in H2. injection H2 as <-.
        apply update_path_effect in H1 as (Hax & Hl1 & Hs1).
        apply update_panel_store in H3 as H3s; [|done]. destruct H3s as [_ Hs3].
        apply update_panel_axes in H3 as [Ho3 _]; [|done].
        specialize (Ho3 Ax2 ltac:(done)). specialize (Hax Ax2). cbn in Ho3, Hax.
        split; [congruence|].
        destruct Hne as (? & ? & ? & ? & ? & ? & ? & ? & ? & ?).
        destruct Hlt as (? & ? & ? & ? & ?).
        rewrite !Hs3, !Hs1 by (cbn; first [lia|done|by apply not_eq_sym]). done.
    + intros Hskip. split.
      * unfold update.
        destruct (update_path history points h _ fig) as [fig1|e]; [|done].
        cbn [mbind res_bind].
        destruct (update_panel h temperature_panel temp_history _ fig1) as [fig2|e]; [|done].
        cbn [mbind res_bind].
        by rewrite (update_panel_skip h _ _ _ fig2 Hskip).
      * intros fig' (fig1 & fig2 & H1 & H2 & H3)%update_inv.
        rewrite (update_panel_skip h _ _ _ fig2 Hskip) in H3. injection H3 as <-.
        apply update_path_effect in H1 as (Hax & Hl1 & Hs1).
        apply update_panel_store in H2 as H2s; [|done]. destruct H2s as [_ Hs2].
        apply update_panel_axes in H2 as [Ho2 _]; [|done].
        specialize (Ho2 Ax3 ltac:(done)). specialize (Hax Ax3). cbn in Ho2, Hax.
        split; [congruence|].
        destruct Hne as (? & ? & ? & ? & ? & ? & ? & ? & ? & ?).
        destruct Hlt as (? & ? & ? & ? & ?).
        rewrite !Hs2, !Hs1 by (cbn; first [lia|done|by apply not_eq_sym]). done.
    + intros e. by apply update_raises.
  - eexists _, _, _, _, _, _, _, _, _, _, _. split; [by vm_compute|].
    split.
    + repeat (apply Forall_cons; split; [by vm_compute|]). apply Forall_nil_2.
    + repeat (apply Forall2_cons; split; [eexists; split; by vm_compute|]).
      apply Forall2_nil_2.
Qed.

Lemma optional_panel_skipped_witness :
  update ten_tours triangle None (Some five_costs) (snd setup) 7 (fst setup) =
    update ten_tours triangle None None (snd setup) 7 (fst setup) /\
  forall fig',
    update ten_tours triangle None (Some five_costs) (snd setup) 7 (fst setup) = Ok fig' ->
    ax3 fig' = ax3 (fst setup) /\
    lines fig' !! cost_line (snd setup) = lines (fst setup) !! cost_line (snd setup) /\
    lines fig' !! cost_points (snd setup) = lines (fst setup) !! cost_points (snd setup).
Proof.
  apply (proj1 optional_panel_skipped ten_tours triangle None (Some five_costs)
           (snd setup) 7 (fst setup)).
  - lia.
  - apply setup_handles_ok.
  - right; right. exists five_costs. split; [reflexivity|]. vm_compute. discriminate.
Defined.

(** ** Axis limits over a run *)

(** What one call of [update] can do to the limits: the tour panel keeps its
    axes; a trace panel keeps its axes or gets the limits of its whole
    history. *)
Lemma update_limits history points temp_history weight_history h frame fig fig' :
  0 <= frame ->
  update history points temp_history weight_history h frame fig = Ok fig' ->
  ax1 fig' = ax1 fig /\
  (ax2 fig' = ax2 fig \/
   exists hist lo hi,
     temp_history = Some hist /\ Py.min hist = Ok lo /\ Py.max hist = Ok hi /\
     xlim (ax2 fig') = Some (panel_xlim hist) /\
     ylim (ax2 fig') = Some (panel_ylim temperature_panel lo hi)) /\
  (ax3 fig' = ax3 fig \/
   exists hist lo hi,
     weight_history = Some hist /\ Py.min hist = Ok lo /\ Py.max hist = Ok hi /\
     xlim (ax3 fig') = Some (panel_xlim hist) /\
     ylim (ax3 fig') = Some (panel_ylim cost_panel lo hi)).
Proof.
  intros Hf%(actual_frame_nonneg history) (fig1 & fig2 & H1 & H2 & H3)%update_inv.
  apply update_path_effect in H1 as (Hax & _ & _).
  apply update_panel_axes in H2 as [Ho2 Hp2]; [|done].
  apply update_panel_axes in H3 as [Ho3 Hp3]; [|done].
  pose proof (Ho3 Ax1 ltac:(done)) as H31. pose proof (Ho2 Ax1 ltac:(done)) as H21.
  pose proof (Ho3 Ax2 ltac:(done)) as H32. pose proof (Ho2 Ax3 ltac:(done)) as H23.
  pose proof (Hax Ax1) as Hp1. pose proof (Hax Ax2) as Hp12. pose proof (Hax Ax3) as Hp13.
  cbn in *.
  split; [congruence|]. split.
  - rewrite H32. destruct Hp2 as [->|Hset]; [by left|by right].
  - destruct Hp3 as [->|Hset]; [left; congruence|by right].
Qed.

(** A run that got past [init]: the figure [init] left and the loop. *)
Lemma animateTSP_Played history points temp_history weight_history fig0 drawn_frames stopped :
  animateTSP history points temp_history weight_history = Played fig0 drawn_frames stopped ->
  exists fs,
    frames history = Ok fs /\
    init history points temp_history weight_history (snd setup) (fst setup) = Ok fig0 /\
    drawn_frames = fst (play history points temp_history weight_history (snd setup) fs fig0) /\
    stopped = snd (play history points temp_history weight_history (snd setup) fs fig0).
Proof.
  unfold animateTSP. cbv zeta.
  destruct (frames history) as [fs|e]; [|discriminate].
  destruct (init history points temp_history weight_history (snd setup) (fst setup))
    as [fig|e]; [|discriminate].
  intros [= <- <- <-]. exists fs. repeat split; reflexivity.
Qed.

(** C4: with a non-empty Temperature History and a non-empty Cost History,
    the vertical limits of the two trace panels are, after [init] and after
    every frame drawn, the minimum of the whole history times 0.9 (0.95 for
    the cost) and its maximum times 1.1 (1.05 for the cost). *)
Theorem bounds_from_whole_history
    history points temps weights fig0 drawn_frames stopped lo_t hi_t lo_w hi_w :
  animateTSP history points (Some temps) (Some weights) = Played fig0 drawn_frames stopped ->
  Py.min temps = Ok lo_t -> Py.max temps = Ok hi_t ->
  Py.min weights = Ok lo_w -> Py.max weights = Ok hi_w ->
  Forall (fun fig =>
            ylim (ax2 fig) = Some (PyFloat (lo_t * 0.9)%float, PyFloat (hi_t * 1.1)%float) /\
            ylim (ax3 fig) = Some (PyFloat (lo_w * 0.95)%float, PyFloat (hi_w * 1.05)%float))
    (fig0 :: (snd <$> drawn_frames)).
Proof.
  intros (fs & Hfs & Hinit & -> & _)%animateTSP_Played Hlt Hht Hlw Hhw.
  apply init_Ok_inv in Hinit as (_ & _ & _ & _ & _ & _ & _ & _ & _ & _ & _ & _ & _ & _ & _ & _ & _ & HT & HW).
  destruct temps as [|t ts]; [discriminate|].
  destruct weights as [|w ws]; [discriminate|].
  destruct HT as (lo & hi & Hlo & Hhi & _ & HTy).
  destruct HW as (lo' & hi' & Hlo' & Hhi' & _ & HWy).
  assert (lo = lo_t /\ hi = hi_t /\ lo' = lo_w /\ hi' = hi_w) as (-> & -> & -> & ->)
    by (repeat split; congruence).
  apply Forall_cons. split; [done|].
  apply Forall_forall. intros fig ((f & fig_) & -> & Hin)%list_elem_of_fmap. cbn.
  revert f fig_ Hin.
  apply (play_invariant _ _ _ _ _
           (fun fig => ylim (ax2 fig) = Some (panel_ylim temperature_panel lo_t hi_t) /\
                       ylim (ax3 fig) = Some (panel_ylim cost_panel lo_w hi_w)));
    [by eapply frames_nonneg|done|].
  intros f fig fig' Hf [H2 H3] (_ & Hu2 & Hu3)%update_limits; [|done].
  split.
  - destruct Hu2 as [->|(hist & lo & hi & [= <-] & Hlo2 & Hhi2 & _ & ->)]; [done|].
    do 2 f_equal; congruence.
  - destruct Hu3 as [->|(hist & lo & hi & [= <-] & Hlo2 & Hhi2 & _ & ->)]; [done|].
    do 2 f_equal; congruence.
Qed.

Lemma bounds_from_whole_history_witness :
  match animateTSP three_tours triangle (Some cooling) (Some five_costs) with
  | Played fig0 drawn_frames _ =>
      Forall (fun fig =>
                ylim (ax2 fig) = Some (PyFloat 9, PyFloat 110.00000000000001) /\
                ylim (ax3 fig) = Some (PyFloat 2.375, PyFloat 3.6750000000000003))
        (fig0 :: (snd <$> drawn_frames))
  | _ => False
  end.
Proof.
  destruct (animateTSP three_tours triangle (Some cooling) (Some five_costs))
    as [e|e|fig0 drawn_frames stopped] eqn:Hrun.
  - vm_compute in Hrun. discriminate Hrun.
  - vm_compute in Hrun. discriminate Hrun.
  - exact (bounds_from_whole_history three_tours triangle cooling five_costs
             fig0 drawn_frames stopped 10 100 2.5 3.5 Hrun eq_refl eq_refl eq_refl eq_refl).
Defined.

(** C5: the limits of the two trace panels after any frame drawn are the
    limits [init] left: recomputing them from the same whole history gives
    the same pair every time (and without a history they are never set). *)
Theorem bounds_stable history points temp_history weight_history fig0 drawn_frames stopped :
  animateTSP history points temp_history weight_history = Played fig0 drawn_frames stopped ->
  Forall (fun fig =>
            xlim (ax2 fig) = xlim (ax2 fig0) /\ ylim (ax2 fig) = ylim (ax2 fig0) /\
            xlim (ax3 fig) = xlim (ax3 fig0) /\ ylim (ax3 fig) = ylim (ax3 fig0))
    (snd <$> drawn_frames).
Proof.
  intros (fs & Hfs & Hinit & -> & _)%animateTSP_Played.
  apply init_Ok_inv in Hinit as (_ & _ & _ & _ & _ & _ & _ & _ & _ & _ & _ & _ & _ & _ & _ & _ & _ & HT & HW).
  apply Forall_forall. intros fig ((f & fig_) & -> & Hin)%list_elem_of_fmap. cbn.
  revert f fig_ Hin.
  apply (play_invariant _ _ _ _ _
           (fun fig => xlim (ax2 fig) = xlim (ax2 fig0) /\ ylim (ax2 fig) = ylim (ax2 fig0) /\
                       xlim (ax3 fig) = xlim (ax3 fig0) /\ ylim (ax3 fig) = ylim (ax3 fig0)));
    [by eapply frames_nonneg|done|].
  intros f fig fig' Hf (Hx2 & Hy2 & Hx3 & Hy3) (_ & Hu2 & Hu3)%update_limits; [|done].
  split; [|split; [|split]].
  - destruct Hu2 as [->|(hist & lo & hi & -> & Hlo & Hhi & -> & _)]; [done|].
    destruct hist as [|t ts]; [discriminate|].
    by destruct HT as (_ & _ & _ & _ & -> & _).
  - destruct Hu2 as [->|(hist & lo & hi & -> & Hlo & Hhi & _ & ->)]; [done|].
    destruct hist as [|t ts]; [discriminate|].
    destruct HT as (lo0 & hi0 & Hlo0 & Hhi0 & _ & ->). do 2 f_equal; congruence.
  - destruct Hu3 as [->|(hist & lo & hi & -> & Hlo & Hhi & -> & _)]; [done|].
    destruct hist as [|t ts]; [discriminate|].
    by destruct HW as (_ & _ & _ & _ & -> & _).
  - destruct Hu3 as [->|(hist & lo & hi & -> & Hlo & Hhi & _ & ->)]; [done|].
    destruct hist as [|t ts]; [discriminate|].
    destruct HW as (lo0 & hi0 & Hlo0 & Hhi0 & _ & ->). do 2 f_equal; congruence.
Qed.

Lemma bounds_stable_witness :
  match animateTSP three_tours triangle (Some cooling) None with
  | Played fig0 drawn_frames _ =>
      Forall (fun fig =>
                xlim (ax2 fig) = xlim (ax2 fig0) /\ ylim (ax2 fig) = ylim (ax2 fig0) /\
                xlim (ax3 fig) = xlim (ax3 fig0) /\ ylim (ax3 fig) = ylim (ax3 fig0))
        (snd <$> drawn_frames)
  | _ => False
  end.
Proof.
  destruct (animateTSP three_tours triangle (Some cooling) None)
    as [e|e|fig0 drawn_frames stopped] eqn:Hrun.
  - vm_compute in Hrun. discriminate Hrun.
  - vm_compute in Hrun. discriminate Hrun.
  - exact (bounds_stable three_tours triangle (Some cooling) None fig0 drawn_frames stopped Hrun).
Defined.

(** ** The tour panel's bounding box and malformed histories *)

(** The IEEE 754 decoding of the lower limit of an interval of floats. *)
Lemma lower_limit_decoding (l1 l2 : option (num * num)) :
  l1 = l2 ->
  match l1 with Some (PyFloat a, _) => Prim2SF a | _ => S754_nan end =
  match l2 with Some (PyFloat a, _) => Prim2SF a | _ => S754_nan end.
Proof. by intros ->. Qed.

(** C6, as stated, fails: with a first tour that leaves out the far city
    (5, 5), [init] gives the tour panel the box of the three cities the tour
    visits, from -0.05 to 1.05, not the box of the whole Point Set. *)
Lemma bounding_box_ignores_unvisited_city :
  exists fig0 drawn_frames stopped,
    animateTSP partial_first four_cities None None = Played fig0 drawn_frames stopped /\
    xlim (ax1 fig0) = Some (PyFloat (-0.05), PyFloat 1.05) /\
    ~ bounding_box (fst <$> four_cities) (snd <$> four_cities) (ax1 fig0).
Proof.
  eexists _, _, _. split; [by vm_compute|]. split; [by vm_compute|].
  intros (lo_x & hi_x & lo_y & hi_y & Hlo & Hhi & _ & _ & Hx & _).
  apply Ok_inj in Hlo, Hhi. subst lo_x hi_x.
  apply lower_limit_decoding in Hx. vm_compute in Hx. discriminate Hx.
Qed.

(** C6, amended: [init] gives the tour panel the padded bounding box of the
    points its first tour [history[0]] visits (5% of the span on each side,
    on each axis), and no frame drawn afterwards changes these limits. *)
Theorem bounding_box_of_first_tour
    history points temp_history weight_history fig0 drawn_frames stopped :
  animateTSP history points temp_history weight_history = Played fig0 drawn_frames stopped ->
  (exists tour xs ys,
      history !! 0%nat = Some tour /\
      column0 points tour = Ok xs /\ column1 points tour = Ok ys /\
      bounding_box xs ys (ax1 fig0)) /\
  Forall (fun fig => xlim (ax1 fig) = xlim (ax1 fig0) /\ ylim (ax1 fig) = ylim (ax1 fig0))
    (snd <$> drawn_frames).
Proof.
  intros (fs & Hfs & Hinit & -> & _)%animateTSP_Played.
  split.
  - apply init_Ok_inv in Hinit
      as (tour & xs & ys & lo_x & hi_x & lo_y & hi_y & Ht & Hxs & Hys & H1 & H2 & H3 & H4 & Hx & Hy & _).
    exists tour, xs, ys. do 3 (split; [done|]).
    by exists lo_x, hi_x, lo_y, hi_y.
  - apply Forall_forall. intros fig ((f & fig_) & -> & Hin)%list_elem_of_fmap. cbn.
    revert f fig_ Hin.
    apply (play_invariant _ _ _ _ _
             (fun fig => xlim (ax1 fig) = xlim (ax1 fig0) /\ ylim (ax1 fig) = ylim (ax1 fig0)));
      [by eapply frames_nonneg|done|].
    intros f fig fig' Hf [Hx Hy] (-> & _)%update_limits; done.
Qed.

Lemma bounding_box_of_first_tour_witness :
  match animateTSP partial_first four_cities None None with
  | Played fig0 drawn_frames _ =>
      (exists tour xs ys,
          partial_first !! 0%nat = Some tour /\
          column0 four_cities tour = Ok xs /\ column1 four_cities tour = Ok ys /\
          bounding_box xs ys (ax1 fig0)) /\
      Forall (fun fig => xlim (ax1 fig) = xlim (ax1 fig0) /\ ylim (ax1 fig) = ylim (ax1 fig0))
        (snd <$> drawn_frames)
  | _ => False
  end.
Proof.
  destruct (animateTSP partial_first four_cities None None)
    as [e|e|fig0 drawn_frames stopped] eqn:Hrun.
  - vm_compute in Hrun. discriminate Hrun.
  - vm_compute in Hrun. discriminate Hrun.
  - exact (bounding_box_of_first_tour partial_first four_cities None None
             fig0 drawn_frames stopped Hrun).
Defined.

(** C9, as stated, fails: a history whose second tour names a city that does
    not exist gets past [init]; frame 0 is drawn, and [IndexError] is raised
    by the update of frame 1. *)
Lemma bad_second_tour_fails_mid_animation :
  getitem two_cities 5 = Raise IndexError /\
  exists fig0 fig1,
    animateTSP bad_second two_cities None None = Played fig0 [(0, fig1)] (Some IndexError).
Proof. split; [reflexivity|]. eexists _, _. vm_compute. reflexivity. Qed.

(** C9, amended: an empty Tour History, and a first tour that names an index
    outside the Point Set, make [init] raise [IndexError], so that no frame
    is drawn.  [init] reads no other tour: it does exactly the same whatever
    the later tours are, and whenever the first tour is non-empty, names
    valid indices only and leads to finite axis limits, [init] succeeds,
    whatever the later tours contain. *)
Theorem init_checks_first_tour_only :
  (forall points temp_history weight_history,
      animateTSP [] points temp_history weight_history = InitRaised IndexError) /\
  (forall tour rest points temp_history weight_history i,
      i ∈ tour -> getitem points i = Raise IndexError ->
      animateTSP (tour :: rest) points temp_history weight_history = InitRaised IndexError) /\
  (forall tour rest rest' points temp_history weight_history h fig,
      init (tour :: rest) points temp_history weight_history h fig =
      init (tour :: rest') points temp_history weight_history h fig) /\
  (forall tour rest points temp_history weight_history pts,
      tour <> [] -> mapM (getitem points) tour = Ok pts ->
      box_finite points tour = true ->
      panel_limits_finite temperature_panel temp_history = true ->
      panel_limits_finite cost_panel weight_history = true ->
      exists fig0 drawn_frames stopped,
        animateTSP (tour :: rest) points temp_history weight_history =
          Played fig0 drawn_frames stopped).
Proof.
  split; [|split; [|split]].
  - intros points temp_history weight_history.
    unfold animateTSP. cbv zeta. rewrite frames_Ok.
    by rewrite init_empty_history.
  - intros tour rest points temp_history weight_history i Hi Hbad.
    unfold animateTSP. cbv zeta.
    rewrite frames_Ok.
    by rewrite (init_bad_first_tour _ points temp_history weight_history (snd setup)
                  tour rest i (fst setup) eq_refl Hi Hbad).
  - reflexivity.
  - intros tour rest points temp_history weight_history pts Hne Hpts Hb Ht Hw.
    unfold animateTSP. cbv zeta.
    rewrite frames_Ok.
    destruct (init_good_first_tour _ points temp_history weight_history (snd setup)
                tour rest pts (fst setup) eq_refl Hne Hpts Hb Ht Hw) as [fig0 ->].
    eexists _, _, _. reflexivity.
Qed.

Lemma init_checks_first_tour_only_witness :
  animateTSP ([0; 5] :: [[0; 1]]) two_cities None None = InitRaised IndexError /\
  exists fig0 drawn_frames stopped,
    animateTSP bad_second two_cities None None = Played fig0 drawn_frames stopped.
Proof.
  split.
  - apply (proj1 (proj2 init_checks_first_tour_only) [0; 5] [[0; 1]] two_cities None None 5).
    + apply elem_of_cons. right. apply elem_of_cons. by left.
    + reflexivity.
  - apply (proj2 (proj2 (proj2 init_checks_first_tour_only)) [0; 1] [[0; 5]] two_cities None None
             [(0, 0); (1, 0)]%float).
    + discriminate.
    + reflexivity.
    + vm_compute. reflexivity.
    + reflexivity.
    + reflexivity.
Defined.

(** ** Which tours a long run shows *)

Lemma len_long_run : len long_run = 90000.
Proof. unfold len, long_run. rewrite length_fmap, length_seqZ. lia. Qed.

Lemma key_frames_mult_long_run : key_frames_mult long_run = 10.
Proof. unfold key_frames_mult. by rewrite len_long_run. Qed.

Lemma lookup_long_run i :
  0 <= i < 90000 -> long_run !! Z.to_nat i = Some [i mod 7].
Proof.
  intros Hi. unfold long_run.
  rewrite list_lookup_fmap, lookup_seqZ_lt by lia. cbn. do 3 f_equal. lia.
Qed.

Lemma seven_cities_resolve i :
  0 <= i < 7 -> exists p, mapM (getitem seven_cities) [i] = Ok [p].
Proof.
  intros Hi.
  assert (i = 0 \/ i = 1 \/ i = 2 \/ i = 3 \/ i = 4 \/ i = 5 \/ i = 6)
    as [->|[->|[->|[->|[->|[->| ->]]]]]] by lia; by eexists.
Qed.

(** C1, on the code: for a Tour History of 90000 tours the stride is 10 and
    the driver enumerates the 9000 frames 0, 10, ..., 89990, but [update]
    multiplies the frame by the stride once more.  Frame [10 * k] therefore
    shows tour [100 * k] for [k < 900], and for the 8100 later frames the
    index is past the end and nothing is drawn.  Frame 10 shows tour 100
    (city 2), not tour 10 (city 3). *)
Theorem long_run_stride_applied_twice :
  key_frames_mult long_run = 10 /\
  frames long_run = Ok ((fun k => k * 10) <$> seqZ 0 9000) /\
  Forall (fun k =>
            exists fig' tour pts,
              update long_run seven_cities None None (snd setup) (10 * k) (fst setup) = Ok fig' /\
              long_run !! Z.to_nat (100 * k) = Some tour /\
              mapM (getitem seven_cities) tour = Ok pts /\
              lines fig' !! line (snd setup) =
                Some (mkLine (xs_of (closed_path pts)) (ys_of (closed_path pts)) "b-"))
    (seqZ 0 900) /\
  Forall (fun k =>
            update long_run seven_cities None None (snd setup) (10 * k) (fst setup) =
              Ok (fst setup))
    (seqZ 900 8100) /\
  (exists fig',
      update long_run seven_cities None None (snd setup) 10 (fst setup) = Ok fig' /\
      long_run !! 10%nat = Some [3] /\
      long_run !! 100%nat = Some [2] /\
      lines fig' !! line (snd setup) =
        Some (mkLine [PyFloat 2; PyFloat 2] [PyFloat 0; PyFloat 0] "b-")).
Proof.
  assert (forall k, 0 <= k < 900 ->
            exists fig' tour pts,
              update long_run seven_cities None None (snd setup) (10 * k) (fst setup) = Ok fig' /\
              long_run !! Z.to_nat (100 * k) = Some tour /\
              mapM (getitem seven_cities) tour = Ok pts /\
              lines fig' !! line (snd setup) =
                Some (mkLine (xs_of (closed_path pts)) (ys_of (closed_path pts)) "b-")) as Hshown.
  { intros k Hk.
    assert (long_run !! Z.to_nat (10 * k * key_frames_mult long_run) = Some [(100 * k) mod 7])
      as Htour.
    { rewrite key_frames_mult_long_run.
      replace (10 * k * 10) with (100 * k) by lia. apply lookup_long_run. lia. }
    destruct (seven_cities_resolve ((100 * k) mod 7)) as [p Hp];
      [apply Z.mod_pos_bound; lia|].
    destruct (update_draws_tour long_run seven_cities None None (snd setup) (10 * k)
                (fst setup) _ _ ltac:(lia) setup_handles_ok Htour ltac:(discriminate) Hp
                eq_refl eq_refl)
      as (fig' & old & Hu & Hold & Hline).
    exists fig', [(100 * k) mod 7], [p].
    split; [exact Hu|]. split; [apply lookup_long_run; lia|]. split; [exact Hp|].
    rewrite Hline. change (lines (fst setup) !! line (snd setup))
      with (Some (mkLine [] [] "b-")) in Hold.
    by injection Hold as <-. }
  split; [apply key_frames_mult_long_run|]. split; [|split; [|split]].
  - rewrite frames_Ok, key_frames_mult_long_run, len_long_run.
    by change (range_len 0 90000 10) with 9000.
  - apply Forall_forall. intros k Hk%elem_of_seqZ. apply Hshown. lia.
  - apply Forall_forall. intros k Hk%elem_of_seqZ.
    unfold update.
    rewrite update_path_past_end
      by (rewrite key_frames_mult_long_run, len_long_run; lia).
    cbn [mbind res_bind].
    rewrite !update_panel_skip by by left. done.
  - destruct (Hshown 1 ltac:(lia)) as (fig' & tour & pts & Hu & Htour & Hpts & Hline).
    change (Z.to_nat (100 * 1)) with 100%nat in Htour.
    pose proof (lookup_long_run 100 ltac:(lia)) as H100.
    change (Z.to_nat 100) with 100%nat in H100. change (100 mod 7) with 2 in H100.
    pose proof (lookup_long_run 10 ltac:(lia)) as H10.
    change (Z.to_nat 10) with 10%nat in H10. change (10 mod 7) with 3 in H10.
    rewrite H100 in Htour. injection Htour as <-.
    change (mapM (getitem seven_cities) [2]) with (Ok [(2, 0)%float] : res (list (float * float))) in Hpts.
    apply Ok_inj in Hpts. subst pts.
    exists fig'. split; [exact Hu|]. split; [exact H10|]. split; [exact H100|]. exact Hline.
Qed.

(** ** More on indexing and on the loop *)

Lemma getitem_Ok_iff {A} (l : list A) (i : Z) :
  (exists x, getitem l i = Ok x) <-> - len l <= i < len l.
Proof.
  unfold getitem, len.
  destruct (Z.ltb_spec i 0) as [Hneg|Hpos].
  - destruct (Z.ltb_spec (i + Z.of_nat (length l)) 0) as [H1|H1]; cbn.
    + split; [by intros [x [=]]|lia].
    + destruct (Z.leb_spec (Z.of_nat (length l)) (i + Z.of_nat (length l))); [lia|].
      destruct (l !! Z.to_nat (i + Z.of_nat (length l))) as [x|] eqn:Hx.
      * split; [lia|by exists x].
      * apply lookup_ge_None in Hx. lia.
  - destruct (Z.ltb_spec i 0); [lia|]. cbn.
    destruct (Z.leb_spec (Z.of_nat (length l)) i).
    + split; [by intros [x [=]]|lia].
    + destruct (l !! Z.to_nat i) as [x|] eqn:Hx.
      * split; [lia|by exists x].
      * apply lookup_ge_None in Hx. lia.
Qed.

Lemma getitem_Raise_invalid points i e :
  getitem points i = Raise e -> ~ valid_index points i.
Proof.
  intros Hr Hv. apply getitem_Ok_iff in Hv as [x Hx]. congruence.
Qed.

Lemma mapM_Raise_inv {A B} (f : A -> res B) (l : list A) (e : exn) :
  mapM f l = Raise e -> exists x, x ∈ l /\ f x = Raise e.
Proof.
  induction l as [|x l IH]; cbn; [discriminate|].
  destruct (f x) as [y|e'] eqn:Hx; cbn.
  - destruct (mapM f l) as [k|e'']; cbn; [discriminate|].
    intros [= ->]. destruct (IH eq_refl) as (z & Hz & Hfz).
    exists z. split; [by apply elem_of_cons; right|done].
  - intros [= ->]. exists x. split; [by apply elem_of_cons; left|done].
Qed.

Lemma mapM_getitem_valid points (tour : list Z) :
  Forall (valid_index points) tour -> exists pts, mapM (getitem points) tour = Ok pts.
Proof.
  induction 1 as [|i tour Hi _ [pts IH]]; [by exists []|].
  apply getitem_Ok_iff in Hi as [p Hp].
  exists (p :: pts). cbn. rewrite Hp. cbn. by rewrite IH.
Qed.

Lemma column0_raises points tour e : column0 points tour = Raise e -> e = IndexError.
Proof.
  unfold column0. intros (i & _ & Hi)%mapM_Raise_inv.
  destruct (getitem points i) as [p|e'] eqn:Hg; cbn in Hi; [discriminate|].
  injection Hi as <-. by eapply getitem_raises.
Qed.

Lemma column1_raises points tour e : column1 points tour = Raise e -> e = IndexError.
Proof.
  unfold column1. intros (i & _ & Hi)%mapM_Raise_inv.
  destruct (getitem points i) as [p|e'] eqn:Hg; cbn in Hi; [discriminate|].
  injection Hi as <-. by eapply getitem_raises.
Qed.

Section LoopFacts.

Variable history : list (list Z).
Variable points : list (float * float).
Variable temp_history weight_history : option (list float).
Variable h : Handles.

(** A loop whose every update succeeds draws each frame once, in order, and
    is not stopped. *)
Lemma play_completes fs fig0 :
  Forall (fun f => 0 <= f) fs ->
  (forall f fig, 0 <= f ->
      exists fig', update history points temp_history weight_history h f fig = Ok fig') ->
  snd (play history points temp_history weight_history h fs fig0) = None /\
  fst <$> fst (play history points temp_history weight_history h fs fig0) = fs.
Proof.
  intros Hfs Hstep. revert fig0.
  induction Hfs as [|f fs Hf _ IH]; intros fig0; cbn; [done|].
  destruct (Hstep f fig0 Hf) as [fig1 ->]. cbn.
  destruct (IH fig1) as [-> ->]. done.
Qed.

(** With drawable tours only and finite panel limits, [update] succeeds on
    every enumerated frame. *)
Lemma update_drawable frame fig :
  Forall (drawable points) history ->
  panel_limits_finite temperature_panel temp_history = true ->
  panel_limits_finite cost_panel weight_history = true ->
  0 <= frame ->
  exists fig', update history points temp_history weight_history h frame fig = Ok fig'.
Proof.
  intros Hwf Hft Hfw Hf.
  pose proof (actual_frame_nonneg history frame Hf) as Ha.
  destruct (history !! Z.to_nat (frame * key_frames_mult history)) as [tour|] eqn:Htour.
  - destruct (proj1 (Forall_lookup _ _) Hwf _ _ Htour) as [Hne Hvalid].
    destruct (mapM_getitem_valid _ _ Hvalid) as [pts Hpts].
    eapply update_after_path; [done| |done|done].
    by eapply update_path_in_range.
  - apply lookup_ge_None in Htour.
    eapply update_after_path; [done| |done|done].
    apply update_path_past_end. unfold len. lia.
Qed.

End LoopFacts.

(** ** How a run ends *)

(** X1: on a history of drawable tours, with finite limits for the tour
    panel's bounding box and for both trace panels, the whole animation
    runs: [init] succeeds, every enumerated frame is drawn, in order, and
    nothing is raised. *)
Theorem drawable_run_completes tour rest points temp_history weight_history :
  Forall (drawable points) (tour :: rest) ->
  box_finite points tour = true ->
  panel_limits_finite temperature_panel temp_history = true ->
  panel_limits_finite cost_panel weight_history = true ->
  exists fig0 drawn_frames fs,
    animateTSP (tour :: rest) points temp_history weight_history =
      Played fig0 drawn_frames None /\
    frames (tour :: rest) = Ok fs /\
    fst <$> drawn_frames = fs.
Proof.
  intros Hwf Hb Hft Hfw.
  assert (drawable points tour) as [Htne Hvalid] by by apply Forall_cons in Hwf as [? _].
  destruct (mapM_getitem_valid _ _ Hvalid) as [pts Hpts].
  destruct (init_good_first_tour (tour :: rest) points temp_history weight_history (snd setup)
              tour rest pts (fst setup) eq_refl Htne Hpts Hb Hft Hfw) as [fig0 Hinit].
  pose proof (frames_Ok (tour :: rest)) as Hfs.
  pose proof (frames_nonneg _ _ Hfs) as Hnn.
  destruct (play_completes (tour :: rest) points temp_history weight_history (snd setup)
              _ fig0 Hnn) as [Hstop Hdrawn].
  { intros f fig Hf. by apply update_drawable. }
  eexists fig0, _, _. split; [|split; [exact Hfs|exact Hdrawn]].
  unfold animateTSP. cbv zeta. rewrite Hfs, Hinit. by rewrite Hstop.
Qed.

Lemma drawable_run_completes_witness :
  exists fig0 drawn_frames fs,
    animateTSP ([0; 1; 2] :: [[1; 2; 0]; [2; 0; 1]]) triangle (Some cooling) None =
      Played fig0 drawn_frames None /\
    frames ([0; 1; 2] :: [[1; 2; 0]; [2; 0; 1]]) = Ok fs /\
    fst <$> drawn_frames = fs.
Proof.
  apply (drawable_run_completes [0; 1; 2] [[1; 2; 0]; [2; 0; 1]] triangle (Some cooling) None).
  - repeat (constructor;
            [split; [discriminate|
                     repeat (constructor; [unfold valid_index, len; cbn; lia|]);
                     constructor]|]).
    constructor.
  - vm_compute. reflexivity.
  - vm_compute. reflexivity.
  - reflexivity.
Defined.

(** X2: on an enumerated frame [update] raises in two ways only:
    [IndexError] from the tour block, when the frame's index falls inside
    the history and the tour there is empty or names an index outside the
    Point Set; [ValueError] from [set_ylim] in a trace block that is not
    skipped and whose limits are not finite. *)
Theorem update_exceptions
    history points temp_history weight_history h frame fig e :
  0 <= frame ->
  update history points temp_history weight_history h frame fig = Raise e ->
  (e = IndexError /\
   exists tour,
     history !! Z.to_nat (frame * key_frames_mult history) = Some tour /\
     (tour = [] \/ exists i, i ∈ tour /\ ~ valid_index points i)) \/
  (e = ValueError /\
   ((~ panel_skipped temp_history (frame * key_frames_mult history) /\
     panel_limits_finite temperature_panel temp_history = false) \/
    (~ panel_skipped weight_history (frame * key_frames_mult history) /\
     panel_limits_finite cost_panel weight_history = false))).
Proof.
  intros Hf [Hu|Hv]%update_raises; [|by right|done]. left.
  pose proof (actual_frame_nonneg history frame Hf) as Ha.
  unfold update_path in Hu.
  destruct (Z.ltb_spec (frame * key_frames_mult history) (len history)) as [Hlt|Hge];
    [|discriminate].
  destruct (history !! Z.to_nat (frame * key_frames_mult history)) as [tour|] eqn:Htour;
    [|apply lookup_ge_None in Htour; unfold len in Hlt; lia].
  rewrite (getitem_in_range _ _ _ Ha Htour) in Hu. cbn [mbind res_bind] in Hu.
  destruct tour as [|i0 rest].
  { injection Hu as <-. split; [done|]. exists []. split; [done|by left]. }
  rewrite (getitem_in_range (i0 :: rest) 0 i0) in Hu by done. cbn [mbind res_bind] in Hu.
  destruct (mapM (getitem points) (i0 :: rest)) as [pts|e'] eqn:Hpts.
  - apply closed_tour_Ok in Hpts.
    rewrite (column0_Ok _ _ _ Hpts), (column1_Ok _ _ _ Hpts) in Hu. discriminate.
  - apply mapM_Raise_inv in Hpts as (i & Hi & Hbad).
    split.
    + destruct (column0 points ((i0 :: rest) ++ [i0])) as [x|e0] eqn:H0;
        cbn [mbind res_bind mret res_ret] in Hu.
      * destruct (column1 points ((i0 :: rest) ++ [i0])) as [y|e1] eqn:H1;
          cbn [mbind res_bind mret res_ret] in Hu; [discriminate|].
        injection Hu as <-. by eapply column1_raises.
      * injection Hu as <-. by eapply column0_raises.
    + exists (i0 :: rest). split; [done|]. right. exists i.
      split; [done|]. by eapply getitem_Raise_invalid.
Qed.

Lemma update_exceptions_witness :
  (IndexError = IndexError /\
   exists tour,
     bad_second !! Z.to_nat (1 * key_frames_mult bad_second) = Some tour /\
     (tour = [] \/ exists i, i ∈ tour /\ ~ valid_index two_cities i)) \/
  (IndexError = ValueError /\
   ((~ panel_skipped None (1 * key_frames_mult bad_second) /\
     panel_limits_finite temperature_panel None = false) \/
    (~ panel_skipped None (1 * key_frames_mult bad_second) /\
     panel_limits_finite cost_panel None = false))).
Proof.
  apply (update_exceptions bad_second two_cities None None (snd setup) 1
           (fst setup) IndexError).
  - lia.
  - reflexivity.
Defined.

(** X3: building the frame range never raises, and [init] raises in three
    ways only: [IndexError] when the history is empty or the first tour
    names an index outside the Point Set; [ValueError] when the first tour
    is empty (from [max] of an empty list); [ValueError] when a limit it
    hands to the backend is not finite.  A first tour that resolves but
    leads to a non-finite limit does make [init] raise [ValueError]. *)
Theorem init_failures history points temp_history weight_history :
  (forall e, animateTSP history points temp_history weight_history <> SetupRaised e) /\
  (forall rest, history = [] :: rest ->
     animateTSP history points temp_history weight_history = InitRaised ValueError) /\
  (forall tour rest pts,
     history = tour :: rest -> tour <> [] -> mapM (getitem points) tour = Ok pts ->
     box_finite points tour &&
       panel_limits_finite temperature_panel temp_history &&
       panel_limits_finite cost_panel weight_history = false ->
     animateTSP history points temp_history weight_history = InitRaised ValueError) /\
  (forall e, animateTSP history points temp_history weight_history = InitRaised e ->
     (e = IndexError /\
      (history = [] \/
       exists tour rest i, history = tour :: rest /\ i ∈ tour /\ ~ valid_index points i)) \/
     (e = ValueError /\
      exists tour rest,
        history = tour :: rest /\
        (tour = [] \/
         box_finite points tour &&
           panel_limits_finite temperature_panel temp_history &&
           panel_limits_finite cost_panel weight_history = false))).
Proof.
  unfold animateTSP. cbv zeta. rewrite frames_Ok.
  split; [|split; [|split]].
  - intros e. by destruct (init _ _ _ _ _ _).
  - by intros rest ->.
  - intros tour rest pts Hh Hne Hpts Hfin.
    pose proof (init_first_tour_result history points temp_history weight_history (snd setup)
                  tour rest pts (fst setup) Hh Hne Hpts) as H.
    rewrite Hfin in H. by rewrite H.
  - intros e He.
    destruct history as [|tour rest] eqn:Hh.
    { cbn in He. injection He as <-. left. split; [done|by left]. }
    destruct tour as [|i0 tour'].
    { cbn in He. injection He as <-. right. split; [done|]. exists [], rest. split; [done|by left]. }
    destruct (mapM (getitem points) (i0 :: tour')) as [pts|e'] eqn:Hpts.
    + pose proof (init_first_tour_result _ points temp_history weight_history (snd setup)
                    (i0 :: tour') rest pts (fst setup) eq_refl ltac:(done) Hpts) as H.
      destruct (box_finite points (i0 :: tour') &&
                panel_limits_finite temperature_panel temp_history &&
                panel_limits_finite cost_panel weight_history) eqn:Hfin.
      * destruct H as [fig0 Hinit]. rewrite Hinit in He. discriminate.
      * rewrite H in He. injection He as <-. right. split; [done|].
        exists (i0 :: tour'), rest. split; [done|by right].
    + apply mapM_Raise_inv in Hpts as (i & Hi & Hbad).
      pose proof (getitem_raises _ _ _ Hbad) as ->.
      rewrite (init_bad_first_tour _ points temp_history weight_history (snd setup)
                 (i0 :: tour') rest i (fst setup) eq_refl Hi Hbad) in He.
      injection He as <-. left. split; [done|]. right.
      exists (i0 :: tour'), rest, i. split; [done|]. split; [done|].
      by eapply getitem_Raise_invalid.
Qed.

Lemma init_failures_witness :
  animateTSP [[]; [0; 1]] two_cities None None = InitRaised ValueError /\
  animateTSP two_tours triangle (Some [infinity]) None = InitRaised ValueError.
Proof.
  split.
  - apply (proj1 (proj2 (init_failures [[]; [0; 1]] two_cities None None)) [[0; 1]]).
    reflexivity.
  - apply (proj1 (proj2 (proj2 (init_failures two_tours triangle (Some [infinity]) None)))
             [0; 1; 2] [[1; 2; 0]] triangle).
    + reflexivity.
    + discriminate.
    + reflexivity.
    + vm_compute. reflexivity.
Defined.

(** ** How many frames, and which tours they show *)

(** X4: the driver enumerates [ceil(len(history) / stride)] frames; that is
    every index of a history shorter than 9000, and otherwise at least 9000
    and fewer than 18000 frames, however long the history is. *)
Theorem frame_count_bounded (history : list (list Z)) :
  exists fs,
    frames history = Ok fs /\
    len fs = (len history + key_frames_mult history - 1) / key_frames_mult history /\
    Z.min (len history) 9000 <= len fs < 18000 /\
    (len history < 9000 -> len fs = len history).
Proof.
  eexists. split; [apply frames_Ok|].
  pose proof (@len_nonneg _ history) as HL.
  pose proof (key_frames_mult_pos history) as Hs.
  assert (len ((fun k => k * key_frames_mult history) <$>
                 seqZ 0 (range_len 0 (len history) (key_frames_mult history))) =
          (len history + key_frames_mult history - 1) / key_frames_mult history) as ->.
  { unfold len at 1. rewrite length_fmap, length_seqZ, range_len_from_zero by done.
    rewrite Z2Nat.id; [done|]. apply Z.div_pos; lia. }
  split; [done|].
  unfold key_frames_mult, FRAME_BUDGET in *.
  destruct (Z.le_gt_cases 9000 (len history)) as [Hlong|Hshort].
  - assert (1 <= len history / 9000) as Hq by (apply Z.div_le_lower_bound; lia).
    rewrite Z.max_r by lia. rewrite Z.min_r by lia.
    pose proof (Z.mul_div_le (len history) 9000 ltac:(lia)) as Hlo.
    pose proof (Z.mul_succ_div_gt (len history) 9000 ltac:(lia)) as Hhi.
    split; [split|lia].
    + apply Z.div_le_lower_bound; lia.
    + apply Z.div_lt_upper_bound; lia.
  - rewrite (Z.div_small (len history) 9000) by lia. rewrite Z.max_l by lia.
    replace (len history + 1 - 1) with (len history) by lia.
    rewrite Z.div_1_r. lia.
Qed.

Lemma frame_count_bounded_witness :
  exists fs,
    frames two_tours = Ok fs /\
    len fs = (len two_tours + key_frames_mult two_tours - 1) / key_frames_mult two_tours /\
    Z.min (len two_tours) 9000 <= len fs < 18000 /\
    len fs = len two_tours.
Proof.
  destruct (frame_count_bounded two_tours) as (fs & Hfs & Hlen & Hbound & Hshort).
  exists fs. split; [exact Hfs|]. split; [exact Hlen|]. split; [exact Hbound|].
  apply Hshort. vm_compute. reflexivity.
Defined.

(** X5: while the history has fewer than 18000 tours the stride is 1, the
    frames are exactly the indices [0 .. len(history) - 1], and an update of
    the frame [f] that returns has drawn the tour [history[f]] as a closed
    path; it does return when the limits of the trace panels are finite. *)
Theorem short_history_shows_every_tour history points temp_history weight_history h :
  len history < 18000 ->
  key_frames_mult history = 1 /\
  frames history = Ok (seqZ 0 (len history)) /\
  forall frame fig tour pts,
    0 <= frame ->
    handles_ok h fig ->
    history !! Z.to_nat frame = Some tour ->
    tour <> [] ->
    mapM (getitem points) tour = Ok pts ->
    (forall fig',
        update history points temp_history weight_history h frame fig = Ok fig' ->
        exists old,
          lines fig !! line h = Some old /\
          lines fig' !! line h =
            Some (mkLine (xs_of (closed_path pts)) (ys_of (closed_path pts)) (fmt old))) /\
    (panel_limits_finite temperature_panel temp_history = true ->
     panel_limits_finite cost_panel weight_history = true ->
     exists fig', update history points temp_history weight_history h frame fig = Ok fig').
Proof.
  intros Hshort.
  pose proof (@len_nonneg _ history) as HL.
  assert (key_frames_mult history = 1) as Hs.
  { unfold key_frames_mult, FRAME_BUDGET.
    assert (len history / 9000 < 2) by (apply Z.div_lt_upper_bound; lia).
    pose proof (Z.div_pos (len history) 9000 ltac:(lia) ltac:(lia)). lia. }
  split; [done|]. split.
  - rewrite frames_Ok, Hs, range_len_from_zero by lia.
    replace (len history + 1 - 1) with (len history) by lia.
    rewrite Z.div_1_r. f_equal.
    rewrite <- (list_fmap_id (seqZ 0 (len history))) at 2.
    apply list_fmap_ext. intros _ k _. cbn. lia.
  - intros frame fig tour pts Hf Hok Htour Hne Hpts.
    assert (history !! Z.to_nat (frame * key_frames_mult history) = Some tour) as Htour'
      by by rewrite Hs, Z.mul_1_r.
    split.
    + intros fig' Hu. by eapply update_shows_tour.
    + intros Hft Hfw.
      destruct (update_draws_tour _ _ _ _ _ _ _ _ _ Hf Hok Htour' Hne Hpts Hft Hfw)
        as (fig' & _ & Hu & _).
      by exists fig'.
Qed.

Lemma short_history_shows_every_tour_witness :
  key_frames_mult ten_tours = 1 /\
  frames ten_tours = Ok (seqZ 0 (len ten_tours)) /\
  forall frame fig tour pts,
    0 <= frame ->
    handles_ok (snd setup) fig ->
    ten_tours !! Z.to_nat frame = Some tour ->
    tour <> [] ->
    mapM (getitem triangle) tour = Ok pts ->
    (forall fig',
        update ten_tours triangle None (Some five_costs) (snd setup) frame fig = Ok fig' ->
        exists old,
          lines fig !! line (snd setup) = Some old /\
          lines fig' !! line (snd setup) =
            Some (mkLine (xs_of (closed_path pts)) (ys_of (closed_path pts)) (fmt old))) /\
    (panel_limits_finite temperature_panel None = true ->
     panel_limits_finite cost_panel (Some five_costs) = true ->
     exists fig',
       update ten_tours triangle None (Some five_costs) (snd setup) frame fig = Ok fig').
Proof.
  apply (short_history_shows_every_tour ten_tours triangle None (Some five_costs) (snd setup)).
  vm_compute. reflexivity.
Defined.

(** X6: from 18000 tours on the stride is at least 2 and is applied twice:
    the index [update] computes for the last enumerated frame is past the
    end of the history, so the tour block of that frame does nothing, an
    update of it that returns has left the tour's line object as it was, and
    it does return when the limits of the trace panels are finite. *)
Theorem long_history_ends_idle history points temp_history weight_history h :
  18000 <= len history ->
  exists fs last_frame,
    frames history = Ok fs /\
    last fs = Some last_frame /\
    len history <= last_frame * key_frames_mult history /\
    forall fig, handles_ok h fig ->
      update_path history points h (last_frame * key_frames_mult history) fig = Ok fig /\
      (forall fig',
          update history points temp_history weight_history h last_frame fig = Ok fig' ->
          lines fig' !! line h = lines fig !! line h) /\
      (panel_limits_finite temperature_panel temp_history = true ->
       panel_limits_finite cost_panel weight_history = true ->
       exists fig', update history points temp_history weight_history h last_frame fig = Ok fig').
Proof.
  intros Hlong.
  pose proof (key_frames_mult_pos history) as Hs1.
  assert (2 <= key_frames_mult history) as Hs.
  { unfold key_frames_mult, FRAME_BUDGET.
    assert (2 <= len history / 9000) by (apply Z.div_le_lower_bound; lia). lia. }
  assert (9000 * key_frames_mult history <= len history) as Hbig.
  { unfold key_frames_mult, FRAME_BUDGET in *.
    rewrite Z.max_r in * by lia. apply Z.mul_div_le. lia. }
  set (s := key_frames_mult history) in *.
  set (n := (len history + s - 1) / s).
  assert (1 <= n) as Hn by (apply Z.div_le_lower_bound; lia).
  assert (len history <= n * s) as Hceil.
  { pose proof (Z.mul_succ_div_gt (len history + s - 1) s ltac:(lia)) as Hgt.
    fold n in Hgt. lia. }
  assert (len history <= (n - 1) * s * s) as Hpast by nia.
  exists ((fun k => k * s) <$> seqZ 0 n), ((n - 1) * s).
  split; [|split; [|split]].
  - rewrite frames_Ok. fold s. by rewrite range_len_from_zero by (pose proof (@len_nonneg _ history); lia).
  - rewrite last_lookup, length_fmap, length_seqZ, list_lookup_fmap.
    rewrite lookup_seqZ_lt by lia. cbn. do 2 f_equal. lia.
  - done.
  - intros fig Hok.
    assert (0 <= (n - 1) * s) as Hf by nia.
    pose proof (update_path_past_end history points h _ fig Hpast) as Hpath.
    split; [done|]. split.
    + intros fig' Hu.
      by destruct (update_tour_panel _ _ _ _ _ _ _ _ _ Hf Hok Hpath Hu).
    + intros Hft Hfw. by eapply update_after_path.
Qed.

Lemma long_history_ends_idle_witness :
  exists fs last_frame,
    frames long_run = Ok fs /\
    last fs = Some last_frame /\
    len long_run <= last_frame * key_frames_mult long_run /\
    forall fig, handles_ok (snd setup) fig ->
      update_path long_run seven_cities (snd setup) (last_frame * key_frames_mult long_run) fig =
        Ok fig /\
      (forall fig',
          update long_run seven_cities None None (snd setup) last_frame fig = Ok fig' ->
          lines fig' !! line (snd setup) = lines fig !! line (snd setup)) /\
      (panel_limits_finite temperature_panel None = true ->
       panel_limits_finite cost_panel None = true ->
       exists fig', update long_run seven_cities None None (snd setup) last_frame fig = Ok fig').
Proof.
  apply (long_history_ends_idle long_run seven_cities None None (snd setup)).
  rewrite len_long_run. lia.
Defined.

(** ** [init] on the figure [setup] builds, and what frames leave alone *)

(** The figure a successful [init] leaves is known up to the limits: six
    line objects (the five captured ones, emptied, and the city markers of
    the first tour), each axes with the artists, titles and labels of the
    set-up, a legend on the tour panel and a grid on each trace panel that
    has a history. *)
Lemma init_from_setup history points temp_history weight_history fig0 :
  init history points temp_history weight_history (snd setup) (fst setup) = Ok fig0 ->
  exists tour xs ys,
    history !! 0%nat = Some tour /\
    column0 points tour = Ok xs /\ column1 points tour = Ok ys /\
    fig0 =
      mkFigure "TSP Simulated Annealing Visualization"
        [mkLine [] [] "b-"; mkLine [] [] "r-"; mkLine [] [] "ro";
         mkLine [] [] "g-"; mkLine [] [] "go";
         mkLine (PyFloat <$> xs) (PyFloat <$> ys) "co"]
        (mkAxes "TSP Path" EmptyString EmptyString
           (xlim (ax1 fig0)) (ylim (ax1 fig0)) false true [0; 5]%nat)
        (mkAxes "Temperature" "Iteration" "Temperature"
           (xlim (ax2 fig0)) (ylim (ax2 fig0)) (truthy temp_history) false [1; 2]%nat)
        (mkAxes "Cost Function" "Iteration" "Cost"
           (xlim (ax3 fig0)) (ylim (ax3 fig0)) (truthy weight_history) false [3; 4]%nat).
Proof.
  unfold init.
  intros (tour & Htour & H)%bind_Ok_inv.
  apply bind_Ok_inv in H as (x & Hx & H).
  apply bind_Ok_inv in H as (y & Hy & H).
  apply bind_Ok_inv in H as (max_x & Hmax_x & H).
  apply bind_Ok_inv in H as (min_x & Hmin_x & H).
  apply bind_Ok_inv in H as (max_y & Hmax_y & H).
  apply bind_Ok_inv in H as (min_y & Hmin_y & H).
  rewrite Hmin_x, Hmax_x in H. cbn [mbind res_bind] in H.
  apply bind_Ok_inv in H as (figX & HX & H).
  rewrite Hmin_y, Hmax_y in H. cbn [mbind res_bind] in H.
  apply bind_Ok_inv in H as (figY & HY & H).
  apply bind_Ok_inv in H as (figT & HT & HC).
  apply set_xlim_Ok_inv in HX as [_ ->]. apply set_ylim_Ok_inv in HY as [_ ->].
  apply getitem_Ok_nonneg in Htour as [Htour _]; [|done].
  exists tour, x, y. do 3 (split; [done|]).
  apply init_panel_Ok_inv in HT as (l2 & ->). apply init_panel_Ok_inv in HC as (l3 & ->).
  destruct temp_history as [[|t ts]|]; destruct weight_history as [[|w ws]|]; reflexivity.
Qed.

Section FrameFacts.

Variable history : list (list Z).
Variable points : list (float * float).
Variable temp_history weight_history : option (list float).
Variable h : Handles.

(** A panel block keeps the figure's title, and keeps or re-creates the
    panel's labels. *)
Lemma update_panel_labels (p : Panel) series a fig fig' :
  0 <= a ->
  update_panel h p series a fig = Ok fig' ->
  suptitle fig' = suptitle fig /\
  (ax (panel_axis p) fig' = ax (panel_axis p) fig \/
   (xlabel (ax (panel_axis p) fig') = "Iteration"%string /\
    ylabel (ax (panel_axis p) fig') = y_label p)).
Proof.
  intros Ha Hu.
  destruct (decide (truthy series && (a <? len (default [] series)) = false)) as [Hs|Hs].
  - rewrite update_panel_skip in Hu by by apply panel_skipped_guard.
    injection Hu as <-. split; [done|by left].
  - apply not_false_is_true, andb_true_iff in Hs as [Ht Hlt].
    apply truthy_Some_inv in Ht as (x & xs & ->). cbn [default from_option id] in Hlt.
    apply Z.ltb_lt in Hlt.
    destruct ((x :: xs) !! Z.to_nat a) as [cur|] eqn:Hcur;
      [|apply lookup_ge_None in Hcur; unfold len in Hlt; lia].
    destruct (update_panel_repaint h p _ _ _ fig Ha Hcur
                (update_panel_Ok_finite _ _ _ _ _ _ _ Ha Hcur Hu))
      as (fig2 & lo & hi & Hu2 & _ & _ & Hax & _ & _).
    split.
    + destruct (update_panel_in_range h p x xs a cur fig Ha Hcur)
        as (fig1 & lo1 & hi1 & _ & _ & Heq & Hsup).
      rewrite Heq in Hu. apply set_ylim_Ok_inv in Hu as [_ ->].
      rewrite <- Hsup. by destruct (panel_axis p).
    + rewrite Hu2 in Hu. injection Hu as <-. right. by rewrite Hax.
Qed.

(** One frame keeps the figure's title and the whole tour panel, and keeps
    or re-creates the labels of both trace panels. *)
Lemma update_labels frame fig fig' :
  0 <= frame ->
  update history points temp_history weight_history h frame fig = Ok fig' ->
  suptitle fig' = suptitle fig /\
  ax1 fig' = ax1 fig /\
  (ax2 fig' = ax2 fig \/
   (xlabel (ax2 fig') = "Iteration"%string /\ ylabel (ax2 fig') = "Temperature"%string)) /\
  (ax3 fig' = ax3 fig \/
   (xlabel (ax3 fig') = "Iteration"%string /\ ylabel (ax3 fig') = "Cost"%string)).
Proof.
  intros Hf Hu. pose proof (update_limits _ _ _ _ _ _ _ _ Hf Hu) as (Hax1 & _ & _).
  pose proof (actual_frame_nonneg history frame Hf) as Ha.
  apply update_inv in Hu as (fig1 & fig2 & H1 & H2 & H3).
  assert (suptitle fig1 = suptitle fig /\ ax2 fig1 = ax2 fig /\ ax3 fig1 = ax3 fig)
    as (Hsup1 & H12 & H13).
  { revert H1. unfold update_path. destruct (_ <? _); [|by intros [= <-]].
    intros (tour & _ & H)%bind_Ok_inv.
    apply bind_Ok_inv in H as (first & _ & H).
    apply bind_Ok_inv in H as (x & _ & H).
    by apply bind_Ok_inv in H as (y & _ & [= <-]). }
  apply update_panel_axes in H2 as H2a; [|done]. destruct H2a as [Ho2 _].
  apply update_panel_axes in H3 as H3a; [|done]. destruct H3a as [Ho3 _].
  apply update_panel_labels in H2 as [Hsup2 Hl2]; [|done].
  apply update_panel_labels in H3 as [Hsup3 Hl3]; [|done].
  pose proof (Ho3 Ax2 ltac:(done)) as H32. pose proof (Ho2 Ax3 ltac:(done)) as H23.
  cbn in H32, H23, Hl2, Hl3.
  split; [congruence|]. split; [done|]. split.
  - rewrite H32. destruct Hl2 as [->|Hl2]; [by left|by right].
  - destruct Hl3 as [->|Hl3]; [left; congruence|by right].
Qed.

End FrameFacts.

(** ** What the panels show *)

(** X7: on a frame whose index [a] falls inside a Cost History, the cost
    panel shows exactly two artists after [update]: the trace of
    [weight_history[0..a]] against [0..a], and a single marker at
    [(a, weight_history[a])]; the title is that value printed with two
    decimals, after the text "Cost: ", and the labels and the grid are back
    in place after the clear. *)
Theorem cost_prefix_drawn history points temp_history weights h frame fig fig' cur :
  let a := frame * key_frames_mult history in
  let prefix := take (Z.to_nat (a + 1)) weights in
  0 <= frame ->
  weights !! Z.to_nat a = Some cur ->
  update history points temp_history (Some weights) h frame fig = Ok fig' ->
  drawn Ax3 fig' =
    [mkLine (PyInt <$> seqZ 0 (a + 1)) (PyFloat <$> prefix) "g-";
     mkLine [PyInt a] [PyFloat cur] "go"] /\
  title (ax3 fig') = String.append "Cost: " (format_fixed 2 cur) /\
  xlabel (ax3 fig') = "Iteration"%string /\
  ylabel (ax3 fig') = "Cost"%string /\
  grid (ax3 fig') = true.
Proof.
  intros a prefix Hf Hcur (fig1 & fig2 & H1 & H2 & H3)%update_inv.
  pose proof (actual_frame_nonneg history frame Hf) as Ha. fold a in Ha, H1, H2, H3.
  destruct (update_panel_repaint h cost_panel weights a cur fig2 Ha Hcur
              (update_panel_Ok_finite _ _ _ _ _ _ _ Ha Hcur H3))
    as (fig3 & lo & hi & H3' & _ & _ & Hax & _ & Hlines).
  rewrite H3 in H3'. injection H3' as <-. cbn in Hax.
  split; [|by rewrite Hax].
  unfold drawn. cbn [ax]. rewrite Hax. cbn [children omap list_omap].
  rewrite Hlines.
  rewrite (lookup_app_r _ _ (length (lines fig2))) by (rewrite !length_alter; lia).
  rewrite (lookup_app_r _ _ (S (length (lines fig2)))) by (rewrite !length_alter; lia).
  rewrite !length_alter.
  replace (length (lines fig2) - length (lines fig2))%nat with 0%nat by lia.
  replace (S (length (lines fig2)) - length (lines fig2))%nat with 1%nat by lia.
  done.
Qed.

Lemma cost_prefix_drawn_witness :
  match update ten_tours triangle None (Some five_costs) (snd setup) 2 (fst setup) with
  | Ok fig' =>
      drawn Ax3 fig' =
        [mkLine [PyInt 0; PyInt 1; PyInt 2] [PyFloat 3.5; PyFloat 3.25; PyFloat 3] "g-";
         mkLine [PyInt 2] [PyFloat 3] "go"] /\
      title (ax3 fig') = "Cost: 3.00"%string /\
      xlabel (ax3 fig') = "Iteration"%string /\
      ylabel (ax3 fig') = "Cost"%string /\
      grid (ax3 fig') = true
  | Raise _ => False
  end.
Proof.
  destruct (update ten_tours triangle None (Some five_costs) (snd setup) 2 (fst setup))
    as [fig'|e] eqn:Hu.
  - exact (cost_prefix_drawn ten_tours triangle None five_costs (snd setup) 2
             (fst setup) fig' 3%float ltac:(lia) eq_refl Hu).
  - vm_compute in Hu. discriminate Hu.
Defined.

(** X8: the horizontal limits of a trace panel with a non-empty history
    are, after [init] and after every frame drawn, 0 and the length of that
    panel's own history (not of the Tour History). *)
Theorem trace_xlim_is_own_length
    history points temps weights fig0 drawn_frames stopped :
  temps <> [] -> weights <> [] ->
  animateTSP history points (Some temps) (Some weights) = Played fig0 drawn_frames stopped ->
  Forall (fun fig =>
            xlim (ax2 fig) = Some (PyInt 0, PyInt (len temps)) /\
            xlim (ax3 fig) = Some (PyInt 0, PyInt (len weights)))
    (fig0 :: (snd <$> drawn_frames)).
Proof.
  intros Ht Hw (fs & Hfs & Hinit & -> & _)%animateTSP_Played.
  apply init_Ok_inv in Hinit as (_ & _ & _ & _ & _ & _ & _ & _ & _ & _ & _ & _ & _ & _ & _ & _ & _ & HT & HW).
  destruct temps as [|t ts]; [done|].
  destruct weights as [|w ws]; [done|].
  destruct HT as (_ & _ & _ & _ & HTx & _).
  destruct HW as (_ & _ & _ & _ & HWx & _).
  apply Forall_cons. split; [done|].
  apply Forall_forall. intros fig ((f & fig_) & -> & Hin)%list_elem_of_fmap. cbn.
  revert f fig_ Hin.
  apply (play_invariant _ _ _ _ _
           (fun fig => xlim (ax2 fig) = Some (panel_xlim (t :: ts)) /\
                       xlim (ax3 fig) = Some (panel_xlim (w :: ws))));
    [by eapply frames_nonneg|done|].
  intros f fig fig' Hf [H2 H3] (_ & Hu2 & Hu3)%update_limits; [|done].
  split.
  - by destruct Hu2 as [->|(hist & lo & hi & [= <-] & _ & _ & -> & _)].
  - by destruct Hu3 as [->|(hist & lo & hi & [= <-] & _ & _ & -> & _)].
Qed.

Lemma trace_xlim_is_own_length_witness :
  match animateTSP ten_tours triangle (Some cooling) (Some five_costs) with
  | Played fig0 drawn_frames _ =>
      Forall (fun fig =>
                xlim (ax2 fig) = Some (PyInt 0, PyInt 3) /\
                xlim (ax3 fig) = Some (PyInt 0, PyInt 5))
        (fig0 :: (snd <$> drawn_frames))
  | _ => False
  end.
Proof.
  destruct (animateTSP ten_tours triangle (Some cooling) (Some five_costs))
    as [e|e|fig0 drawn_frames stopped] eqn:Hrun.
  - vm_compute in Hrun. discriminate Hrun.
  - vm_compute in Hrun. discriminate Hrun.
  - exact (trace_xlim_is_own_length ten_tours triangle cooling five_costs
             fig0 drawn_frames stopped ltac:(discriminate) ltac:(discriminate) Hrun).
Defined.

(** X9: no frame touches the tour panel's axes (its title, legend, limits
    and list of artists stay as [init] left them) or the figure's title, and
    the labels of the two trace panels survive every clear-and-redraw. *)
Theorem decorations_survive history points temp_history weight_history fig0 drawn_frames stopped :
  animateTSP history points temp_history weight_history = Played fig0 drawn_frames stopped ->
  Forall (fun fig =>
            suptitle fig = "TSP Simulated Annealing Visualization"%string /\
            ax1 fig = ax1 fig0 /\
            title (ax1 fig) = "TSP Path"%string /\ legend (ax1 fig) = true /\
            xlabel (ax2 fig) = "Iteration"%string /\ ylabel (ax2 fig) = "Temperature"%string /\
            xlabel (ax3 fig) = "Iteration"%string /\ ylabel (ax3 fig) = "Cost"%string)
    (fig0 :: (snd <$> drawn_frames)).
Proof.
  intros (fs & Hfs & Hinit & -> & _)%animateTSP_Played.
  apply init_from_setup in Hinit as (tour & xs & ys & _ & _ & _ & Hfig0).
  assert (suptitle fig0 = "TSP Simulated Annealing Visualization"%string /\
          ax1 fig0 = ax1 fig0 /\
          title (ax1 fig0) = "TSP Path"%string /\ legend (ax1 fig0) = true /\
          xlabel (ax2 fig0) = "Iteration"%string /\ ylabel (ax2 fig0) = "Temperature"%string /\
          xlabel (ax3 fig0) = "Iteration"%string /\ ylabel (ax3 fig0) = "Cost"%string) as H0
    by (rewrite Hfig0; done).
  apply Forall_cons. split; [done|].
  apply Forall_forall. intros fig ((f & fig_) & -> & Hin)%list_elem_of_fmap. cbn.
  revert f fig_ Hin.
  apply (play_invariant _ _ _ _ _
           (fun fig =>
              suptitle fig = "TSP Simulated Annealing Visualization"%string /\
              ax1 fig = ax1 fig0 /\
              title (ax1 fig) = "TSP Path"%string /\ legend (ax1 fig) = true /\
              xlabel (ax2 fig) = "Iteration"%string /\ ylabel (ax2 fig) = "Temperature"%string /\
              xlabel (ax3 fig) = "Iteration"%string /\ ylabel (ax3 fig) = "Cost"%string));
    [by eapply frames_nonneg|done|].
  clear H0 Hfig0.
  intros f fig fig' Hf (Hs & H1 & Ht & Hl & Hx2 & Hy2 & Hx3 & Hy3)
    (Hs' & H1' & H2' & H3')%update_labels; [|done].
  rewrite Hs', H1'. do 4 (split; [done|]).
  destruct H2' as [->|[-> ->]]; destruct H3' as [->|[-> ->]]; done.
Qed.

Lemma decorations_survive_witness :
  match animateTSP ten_tours triangle (Some cooling) (Some five_costs) with
  | Played fig0 drawn_frames _ =>
      Forall (fun fig =>
                suptitle fig = "TSP Simulated Annealing Visualization"%string /\
                ax1 fig = ax1 fig0 /\
                title (ax1 fig) = "TSP Path"%string /\ legend (ax1 fig) = true /\
                xlabel (ax2 fig) = "Iteration"%string /\ ylabel (ax2 fig) = "Temperature"%string /\
                xlabel (ax3 fig) = "Iteration"%string /\ ylabel (ax3 fig) = "Cost"%string)
        (fig0 :: (snd <$> drawn_frames))
  | _ => False
  end.
Proof.
  destruct (animateTSP ten_tours triangle (Some cooling) (Some five_costs))
    as [e|e|fig0 drawn_frames stopped] eqn:Hrun.
  - vm_compute in Hrun. discriminate Hrun.
  - vm_compute in Hrun. discriminate Hrun.
  - exact (decorations_survive ten_tours triangle (Some cooling) (Some five_costs)
             fig0 drawn_frames stopped Hrun).
Defined.

(** ** The captured line objects *)

(** X10: when [init] has succeeded, the tour panel shows the (still empty)
    path and the city markers of the first tour with a legend, each trace
    panel shows its two empty placeholders, and a trace panel has a grid
    exactly when its history is present and non-empty. *)
Theorem static_elements_after_init
    history points temp_history weight_history fig0 drawn_frames stopped :
  animateTSP history points temp_history weight_history = Played fig0 drawn_frames stopped ->
  exists tour xs ys,
    history !! 0%nat = Some tour /\
    column0 points tour = Ok xs /\ column1 points tour = Ok ys /\
    drawn Ax1 fig0 = [mkLine [] [] "b-"; mkLine (PyFloat <$> xs) (PyFloat <$> ys) "co"] /\
    drawn Ax2 fig0 = [mkLine [] [] "r-"; mkLine [] [] "ro"] /\
    drawn Ax3 fig0 = [mkLine [] [] "g-"; mkLine [] [] "go"] /\
    legend (ax1 fig0) = true /\
    grid (ax2 fig0) = truthy temp_history /\
    grid (ax3 fig0) = truthy weight_history.
Proof.
  intros (fs & _ & Hinit & _)%animateTSP_Played.
  apply init_from_setup in Hinit as (tour & xs & ys & Ht & Hx & Hy & Hfig0).
  exists tour, xs, ys. do 3 (split; [done|]).
  rewrite Hfig0. done.
Qed.

Lemma static_elements_after_init_witness :
  match animateTSP two_tours triangle (Some cooling) None with
  | Played fig0 _ _ =>
      exists tour xs ys,
        two_tours !! 0%nat = Some tour /\
        column0 triangle tour = Ok xs /\ column1 triangle tour = Ok ys /\
        drawn Ax1 fig0 = [mkLine [] [] "b-"; mkLine (PyFloat <$> xs) (PyFloat <$> ys) "co"] /\
        drawn Ax2 fig0 = [mkLine [] [] "r-"; mkLine [] [] "ro"] /\
        drawn Ax3 fig0 = [mkLine [] [] "g-"; mkLine [] [] "go"] /\
        legend (ax1 fig0) = true /\
        grid (ax2 fig0) = truthy (Some cooling) /\
        grid (ax3 fig0) = truthy (@None (list float))
  | _ => False
  end.
Proof.
  destruct (animateTSP two_tours triangle (Some cooling) None)
    as [e|e|fig0 drawn_frames stopped] eqn:Hrun.
  - vm_compute in Hrun. discriminate Hrun.
  - vm_compute in Hrun. discriminate Hrun.
  - exact (static_elements_after_init two_tours triangle (Some cooling) None
             fig0 drawn_frames stopped Hrun).
Defined.

(** X11: on a frame inside the Temperature History, [update] stores the
    prefix in the captured object [temp_line] and the current point in
    [temp_points], but after the clear neither object is among the artists
    of the temperature panel: what the panel shows are the two objects
    plotted afresh. *)
Theorem captured_objects_updated_but_not_shown
    history points temps weight_history h frame fig fig' cur old_line old_points :
  let a := frame * key_frames_mult history in
  0 <= frame ->
  handles_ok h fig ->
  temps !! Z.to_nat a = Some cur ->
  lines fig !! temp_line h = Some old_line ->
  lines fig !! temp_points h = Some old_points ->
  update history points (Some temps) weight_history h frame fig = Ok fig' ->
  lines fig' !! temp_line h =
    Some (mkLine (PyInt <$> seqZ 0 (a + 1)) (PyFloat <$> take (Z.to_nat (a + 1)) temps)
            (fmt old_line)) /\
  lines fig' !! temp_points h = Some (mkLine [PyInt a] [PyFloat cur] (fmt old_points)) /\
  (temp_line h ∉ children (ax2 fig')) /\
  (temp_points h ∉ children (ax2 fig')).
Proof.
  intros a Hf Hok Hcur Hold_line Hold_points (fig1 & fig2 & H1 & H2 & H3)%update_inv.
  pose proof (actual_frame_nonneg history frame Hf) as Ha. fold a in Ha, H1, H2, H3.
  destruct (handles_ok_inv _ _ Hok)
    as [(? & ? & ? & ? & ? & ? & ? & ? & ? & ?) (? & ? & ? & ? & ?)].
  apply update_path_effect in H1 as (_ & Hl1 & Hs1).
  destruct (update_panel_repaint h temperature_panel temps a cur fig1 Ha Hcur
              (update_panel_Ok_finite _ _ _ _ _ _ _ Ha Hcur H2))
    as (fig2' & lo & hi & H2' & _ & _ & Hax & _ & Hlines).
  rewrite H2 in H2'. injection H2' as <-. cbn in Hax, Hlines.
  apply update_panel_store in H3 as H3s; [|done]. destruct H3s as [_ Hs3].
  apply update_panel_axes in H3 as [Ho3 _]; [|done].
  specialize (Ho3 Ax2 ltac:(done)). cbn in Ho3, Hs3.
  assert (length (lines fig2) = S (S (length (lines fig1)))) as Hlen2.
  { rewrite Hlines, length_app, !length_alter. cbn. lia. }
  split; [|split; [|split]].
  - rewrite Hs3 by first [lia|done].
    rewrite Hlines, lookup_app_l by (rewrite !length_alter; lia).
    rewrite list_lookup_alter_ne by by apply not_eq_sym.
    rewrite list_lookup_alter_eq, Hs1, Hold_line by by apply not_eq_sym. done.
  - rewrite Hs3 by first [lia|done].
    rewrite Hlines, lookup_app_l by (rewrite !length_alter; lia).
    rewrite list_lookup_alter_eq, list_lookup_alter_ne by done.
    rewrite Hs1, Hold_points by by apply not_eq_sym. done.
  - rewrite Ho3, Hax. cbn. rewrite !not_elem_of_cons. repeat split; try lia.
    apply not_elem_of_nil.
  - rewrite Ho3, Hax. cbn. rewrite !not_elem_of_cons. repeat split; try lia.
    apply not_elem_of_nil.
Qed.

Lemma captured_objects_updated_but_not_shown_witness :
  match update three_tours triangle (Some cooling) None (snd setup) 1 (fst setup) with
  | Ok fig' =>
      lines fig' !! temp_line (snd setup) =
        Some (mkLine [PyInt 0; PyInt 1] [PyFloat 100; PyFloat 50] "r-") /\
      lines fig' !! temp_points (snd setup) = Some (mkLine [PyInt 1] [PyFloat 50] "ro") /\
      (temp_line (snd setup) ∉ children (ax2 fig')) /\
      (temp_points (snd setup) ∉ children (ax2 fig'))
  | Raise _ => False
  end.
Proof.
  destruct (update three_tours triangle (Some cooling) None (snd setup) 1 (fst setup))
    as [fig'|e] eqn:Hu.
  - exact (captured_objects_updated_but_not_shown three_tours triangle cooling None
             (snd setup) 1 (fst setup) fig' 50%float (mkLine [] [] "r-") (mkLine [] [] "ro")
             ltac:(lia) setup_handles_ok eq_refl eq_refl eq_refl Hu).
  - vm_compute in Hu. discriminate Hu.
Defined.

(** ** No accumulation of artists *)

(** A panel block keeps the artists of its axes or replaces them by two. *)
Lemma update_panel_children h (p : Panel) series a fig fig' :
  0 <= a ->
  update_panel h p series a fig = Ok fig' ->
  children (ax (panel_axis p) fig') = children (ax (panel_axis p) fig) \/
  length (children (ax (panel_axis p) fig')) = 2%nat.
Proof.
  intros Ha Hu.
  destruct (decide (truthy series && (a <? len (default [] series)) = false)) as [Hs|Hs].
  - rewrite update_panel_skip in Hu by by apply panel_skipped_guard.
    injection Hu as <-. by left.
  - apply not_false_is_true, andb_true_iff in Hs as [Ht Hlt].
    apply truthy_Some_inv in Ht as (x & xs & ->). cbn [default from_option id] in Hlt.
    apply Z.ltb_lt in Hlt.
    destruct ((x :: xs) !! Z.to_nat a) as [cur|] eqn:Hcur;
      [|apply lookup_ge_None in Hcur; unfold len in Hlt; lia].
    destruct (update_panel_repaint h p _ _ _ fig Ha Hcur
                (update_panel_Ok_finite _ _ _ _ _ _ _ Ha Hcur Hu))
      as (fig2 & lo & hi & Hu2 & _ & _ & Hax & _ & _).
    rewrite Hu2 in Hu. injection Hu as <-. right. by rewrite Hax.
Qed.

(** X12: although every in-range frame plots a trace and a marker afresh,
    no axes ever accumulates artists: after [init] and after every frame
    drawn, each of the three panels lists exactly two. *)
Theorem two_artists_per_panel
    history points temp_history weight_history fig0 drawn_frames stopped :
  animateTSP history points temp_history weight_history = Played fig0 drawn_frames stopped ->
  Forall (fun fig =>
            length (children (ax1 fig)) = 2%nat /\
            length (children (ax2 fig)) = 2%nat /\
            length (children (ax3 fig)) = 2%nat)
    (fig0 :: (snd <$> drawn_frames)).
Proof.
  intros (fs & Hfs & Hinit & -> & _)%animateTSP_Played.
  apply init_from_setup in Hinit as (tour & xs & ys & _ & _ & _ & Hfig0).
  assert (length (children (ax1 fig0)) = 2%nat /\
          length (children (ax2 fig0)) = 2%nat /\
          length (children (ax3 fig0)) = 2%nat) as H0 by (rewrite Hfig0; done).
  apply Forall_cons. split; [done|].
  apply Forall_forall. intros fig ((f & fig_) & -> & Hin)%list_elem_of_fmap. cbn.
  revert f fig_ Hin.
  apply (play_invariant _ _ _ _ _
           (fun fig => length (children (ax1 fig)) = 2%nat /\
                       length (children (ax2 fig)) = 2%nat /\
                       length (children (ax3 fig)) = 2%nat));
    [by eapply frames_nonneg|done|].
  clear H0 Hfig0.
  intros f fig fig' Hf (Hc1 & Hc2 & Hc3) Hu.
  pose proof (update_limits _ _ _ _ _ _ _ _ Hf Hu) as (Hax1 & _ & _).
  pose proof (actual_frame_nonneg history f Hf) as Ha.
  apply update_inv in Hu as (fig1 & fig2 & H1 & H2 & H3).
  apply update_path_effect in H1 as (Hp & _ & _).
  apply update_panel_axes in H2 as H2a; [|done]. destruct H2a as [Ho2 _].
  apply update_panel_axes in H3 as H3a; [|done]. destruct H3a as [Ho3 _].
  apply update_panel_children in H2; [|done].
  apply update_panel_children in H3; [|done].
  pose proof (Ho3 Ax2 ltac:(done)) as H32. pose proof (Ho2 Ax3 ltac:(done)) as H23.
  pose proof (Hp Ax2) as Hp2. pose proof (Hp Ax3) as Hp3.
  cbn in H32, H23, H2, H3, Hp2, Hp3.
  split; [by rewrite Hax1|]. split.
  - rewrite H32. destruct H2 as [->|H2]; [by rewrite Hp2|done].
  - destruct H3 as [->|H3]; [by rewrite H23, Hp3|done].
Qed.

Lemma two_artists_per_panel_witness :
  match animateTSP ten_tours triangle (Some cooling) (Some five_costs) with
  | Played fig0 drawn_frames _ =>
      Forall (fun fig =>
                length (children (ax1 fig)) = 2%nat /\
                length (children (ax2 fig)) = 2%nat /\
                length (children (ax3 fig)) = 2%nat)
        (fig0 :: (snd <$> drawn_frames))
  | _ => False
  end.
Proof.
  destruct (animateTSP ten_tours triangle (Some cooling) (Some five_costs))
    as [e|e|fig0 drawn_frames stopped] eqn:Hrun.
  - vm_compute in Hrun. discriminate Hrun.
  - vm_compute in Hrun. discriminate Hrun.
  - exact (two_artists_per_panel ten_tours triangle (Some cooling) (Some five_costs)
             fig0 drawn_frames stopped Hrun).
Defined.
